(** * Statement import pipeline: CSV parser, categorizer, deduplication hash

    A shallow embedding of the three engineering-dense modules of the
    finance tracker:

    - the CSV parser ([parseCSV], [detectColumnMappings], [parseRow],
      [parseDate], [parseAmount]);
    - the categorizer ([categorizeTransaction],
      [parseCategorizationResponse], [ruleBasedCategorization]);
    - the deduplication hash of the transactions route ([generateHash]).

    JavaScript strings are sequences of UTF-16 code units and are modelled
    as [list N]; [u "..."] injects an ASCII literal.  JavaScript numbers are
    modelled by [number]: [NaN], the two infinities, and the finite values
    as canonical rationals ([Qc]), which contain every double exactly.
    Comparisons, [Math.min] and [Math.max] are exact on doubles, so they are
    the rational ones; where the host rounds a decimal literal to the
    nearest double the model keeps the literal's mathematical value.  Both
    zeros are the one [Fin 0] (they are both falsy and compare equal).

    Host facilities that the code calls but does not define (the Papa CSV
    tokenizer, [String.prototype.toLowerCase], the [Date] constructor,
    [JSON.parse], the remote providers, [TextEncoder], the SHA-256 digest)
    are Section variables; concrete instances are given where a statement
    has to be evaluated. *)

From Stdlib Require Import ZArith NArith QArith Qcanon List Bool Lia.
From Stdlib Require Import String Ascii DecimalString.
From Stdlib Require Import Strings.Byte.
Import ListNotations.

Set Implicit Arguments.

(* ================================================================== *)
(** ** JavaScript strings *)
(* ================================================================== *)

Module JS.

(** A string is its sequence of UTF-16 code units. *)
Definition jsstring := list N.

(** ASCII literal. *)
Definition u (s : string) : jsstring :=
  List.map N_of_ascii (list_ascii_of_string s).

Fixpoint str_eqb (a b : jsstring) : bool :=
  match a, b with
  | [], [] => true
  | x :: a', y :: b' => N.eqb x y && str_eqb a' b'
  | _, _ => false
  end.

(** [s.startsWith(p)] *)
Fixpoint startsWith (s p : jsstring) {struct p} : bool :=
  match p, s with
  | [], _ => true
  | _ :: _, [] => false
  | c :: p', d :: s' => N.eqb c d && startsWith s' p'
  end.

(** [s.endsWith(p)] *)
Definition endsWith (s p : jsstring) : bool :=
  startsWith (rev s) (rev p).

(** [s.includes(p)]: [p] occurs in [s] at some position. *)
Fixpoint includes (s p : jsstring) : bool :=
  startsWith s p ||
  match s with
  | [] => false
  | _ :: s' => includes s' p
  end.

(** A string is truthy when it is not empty. *)
Definition truthy_string (s : jsstring) : bool :=
  match s with [] => false | _ :: _ => true end.

(** A value that is a string or [undefined]. *)
Definition truthy_opt (c : option jsstring) : bool :=
  match c with Some s => truthy_string s | None => false end.

(** [c || d] on a string-or-undefined [c] and a string [d]. *)
Definition or_else (c : option jsstring) (d : jsstring) : jsstring :=
  match c with
  | Some s => if truthy_string s then s else d
  | None => d
  end.

(** ECMAScript [WhiteSpace] and [LineTerminator] code units: the class
    [\s] of regular expressions and the characters [trim] removes. *)
Definition isWhiteSpace (c : N) : bool :=
  ((9 <=? c) && (c <=? 13) || (c =? 32) || (c =? 160) || (c =? 5760)
   || (8192 <=? c) && (c <=? 8202) || (c =? 8232) || (c =? 8233)
   || (c =? 8239) || (c =? 8287) || (c =? 12288) || (c =? 65279))%N.

Fixpoint trimStart (s : jsstring) : jsstring :=
  match s with
  | c :: s' => if isWhiteSpace c then trimStart s' else s
  | [] => []
  end.

Definition trimEnd (s : jsstring) : jsstring := rev (trimStart (rev s)).

(** [s.trim()] *)
Definition trim (s : jsstring) : jsstring := trimEnd (trimStart s).

(** [\d] *)
Definition isDigit (c : N) : bool := ((48 <=? c) && (c <=? 57))%N.

(** Longest prefix of characters satisfying [p], and the rest. *)
Fixpoint span (p : N -> bool) (s : jsstring) : jsstring * jsstring :=
  match s with
  | c :: s' =>
      if p c then let (a, b) := span p s' in (c :: a, b) else ([], s)
  | [] => ([], [])
  end.

(** Value of a string of decimal digits. *)
Definition digitsValue (ds : jsstring) : Z :=
  fold_left (fun acc c => (10 * acc + (Z.of_N c - 48))%Z) ds 0%Z.

(** [`${n}`] for an integer [n] (plain decimal, as the host prints every
    integer below 10^21). *)
Definition Z_toString (n : Z) : jsstring :=
  u (NilZero.string_of_int (Z.to_int n)).

(** [toLowerCase] restricted to ASCII: the host's function on strings whose
    code units are all below 128. *)
Definition toLowerCase_ascii (s : jsstring) : jsstring :=
  List.map (fun c => if ((65 <=? c) && (c <=? 90))%N then (c + 32)%N else c) s.

End JS.
Import JS.

(* ================================================================== *)
(** ** JavaScript numbers *)
(* ================================================================== *)

Inductive number : Type :=
| NaN : number
| Infinity (negative : bool) : number
| Fin (q : Qc) : number.

Definition isNaN (x : number) : bool :=
  match x with NaN => true | _ => false end.

(** Decimal [m * 10^e] as a number. *)
Definition decimal (m e : Z) : number :=
  if (0 <=? e)%Z
  then Fin (Q2Qc (Qmake (m * 10 ^ e) 1))
  else Fin (Q2Qc (Qmake m (Z.to_pos (10 ^ (- e))))).

Definition Qc_ltb (a b : Qc) : bool :=
  match Qccompare a b with Lt => true | _ => false end.

(** [x > y] *)
Definition num_gt (x y : number) : bool :=
  match x, y with
  | NaN, _ | _, NaN => false
  | Infinity false, Infinity false => false
  | Infinity false, _ => true
  | _, Infinity false => false
  | Infinity true, _ => false
  | Fin _, Infinity true => true
  | Fin a, Fin b => Qc_ltb b a
  end.

(** [Math.min(x, y)] *)
Definition Math_min (x y : number) : number :=
  match x, y with
  | NaN, _ | _, NaN => NaN
  | _, _ => if num_gt x y then y else x
  end.

(** [Math.max(x, y)] *)
Definition Math_max (x y : number) : number :=
  match x, y with
  | NaN, _ | _, NaN => NaN
  | _, _ => if num_gt y x then y else x
  end.

(** A number is falsy when it is zero or [NaN]. *)
Definition truthy_number (x : number) : bool :=
  match x with
  | NaN => false
  | Infinity _ => true
  | Fin q => negb (Qc_eq_bool q (Q2Qc 0))
  end.

(** [parseFloat(s)]: leading white space is skipped and the longest prefix
    that is a [StrDecimalLiteral] is read; what follows it is ignored.
    [scanDecimal] also returns that ignored rest.  In ["5."] the point
    belongs to the literal; in ["."] alone there is no literal. *)
Definition scanExponent (s : jsstring) : Z * jsstring :=
  match s with
  | c :: r =>
      if ((c =? 101) || (c =? 69))%N then
        let (neg, r') :=
          match r with
          | d :: r'' =>
              if (d =? 45)%N then (true, r'')
              else if (d =? 43)%N then (false, r'')
              else (false, r)
          | [] => (false, r)
          end in
        let (ds, rest) := span isDigit r' in
        match ds with
        | [] => (0%Z, s)
        | _ :: _ => ((if neg then - digitsValue ds else digitsValue ds)%Z, rest)
        end
      else (0%Z, s)
  | [] => (0%Z, s)
  end.

Definition scanDecimal (s : jsstring) : option (number * jsstring) :=
  let (neg, s1) :=
    match s with
    | c :: r =>
        if (c =? 45)%N then (true, r)
        else if (c =? 43)%N then (false, r)
        else (false, s)
    | [] => (false, s)
    end in
  if startsWith s1 (u "Infinity")
  then Some (Infinity neg, skipn 8 s1)
  else
    let (ip, r1) := span isDigit s1 in
    let (fp, r2) :=
      match r1 with
      | c :: r => if (c =? 46)%N then span isDigit r else ([], r1)
      | [] => ([], r1)
      end in
    match ip ++ fp with
    | [] => None
    | _ :: _ =>
        let (e, rest) := scanExponent r2 in
        let m := digitsValue (ip ++ fp) in
        Some (decimal (if neg then - m else m)%Z (e - Z.of_nat (List.length fp))%Z,
              rest)
    end.

Definition parseFloat (s : jsstring) : number :=
  match scanDecimal (trimStart s) with
  | Some (v, _) => v
  | None => NaN
  end.

(* ================================================================== *)
(** ** CSV parser *)
(* ================================================================== *)

Module CsvParser.

(** A data row as the tokenizer delivers it with [header: true]: the
    object's own string-valued properties, keyed by the transformed header.
    A cell that the line did not have is an absent key ([undefined]). *)
Definition Row := list (jsstring * jsstring).

(** [row[key]] *)
Fixpoint row_get (row : Row) (key : jsstring) : option jsstring :=
  match row with
  | [] => None
  | (k, v) :: rest => if str_eqb k key then Some v else row_get rest key
  end.

(** [row[columnMap.field]]: an unmapped field is the key [undefined], which
    property access turns into the string ["undefined"]. *)
Definition row_at (row : Row) (column : option jsstring) : option jsstring :=
  row_get row (match column with Some h => h | None => u "undefined" end).

(** Time value of a valid [Date]: milliseconds since the epoch. *)
Definition Date := Z.

Record ParsedTransaction := {
  tx_date : Date;
  tx_merchant : jsstring;
  tx_description : jsstring;
  tx_amount : number;
  tx_rawData : Row
}.

Record CSVParseResult := {
  success : bool;
  transactions : list ParsedTransaction;
  errors : list jsstring
}.

(** What [Papa.parse(fileContent, {header, skipEmptyLines, transformHeader})]
    hands back: the data rows, the tokenizer's own error records (their
    [row] may be missing) and the header list, already trimmed and
    lower-cased by [transformHeader]. *)
Record PapaError := {
  pe_row : option Z;
  pe_message : jsstring
}.

Record PapaResult := {
  papa_data : list Row;
  papa_errors : list PapaError;
  meta_fields : option (list jsstring)
}.

(** The call returns, or throws a value that is an [Error] with a message
    ([Some]) or something else ([None]). *)
Inductive PapaOutcome :=
| PapaThrew (message : option jsstring)
| PapaReturned (result : PapaResult).

(** Mapping from canonical field to the chosen header. *)
Record ColumnMap := {
  cm_date : option jsstring;
  cm_merchant : option jsstring;
  cm_description : option jsstring;
  cm_amount : option jsstring
}.

Inductive Field := FDate | FMerchant | FDescription | FAmount.

Definition cm_get (f : Field) (m : ColumnMap) : option jsstring :=
  match f with
  | FDate => cm_date m
  | FMerchant => cm_merchant m
  | FDescription => cm_description m
  | FAmount => cm_amount m
  end.

(** [COLUMN_MAPPINGS] *)
Definition COLUMN_MAPPINGS (f : Field) : list jsstring :=
  match f with
  | FDate =>
      [u "date"; u "transaction date"; u "posted date"; u "trans date";
       u "posting date"]
  | FMerchant =>
      [u "merchant"; u "description"; u "payee"; u "name"; u "vendor"]
  | FDescription => [u "description"; u "memo"; u "details"; u "notes"]
  | FAmount =>
      [u "amount"; u "value"; u "transaction amount"; u "debit"; u "credit"]
  end.

(** Outcome of [parseRow]: [null], a thrown [Error], or a transaction. *)
Inductive RowOutcome :=
| Skipped
| Threw (message : jsstring)
| Parsed (t : ParsedTransaction).

(** The two regular expressions of [usFormats], as the digit counts of
    their three groups. *)
Definition DateFormat := ((nat * nat) * (nat * nat) * (nat * nat))%type.

Definition usFormats : list DateFormat :=
  [ ((1, 2), (1, 2), (4, 4)) ; ((4, 4), (1, 2), (1, 2)) ]%nat.

(** [[\/\-]] *)
Definition isDateSep (c : N) : bool := ((c =? 47) || (c =? 45))%N.

(** [(\d{lo,hi})] when a non-digit or the end follows: the whole run of
    digits is the group. *)
Definition digitGroup (bounds : nat * nat) (s : jsstring)
  : option (jsstring * jsstring) :=
  let (d, r) := span isDigit s in
  if (Nat.leb (fst bounds) (List.length d) && Nat.leb (List.length d) (snd bounds))%bool
  then Some (d, r) else None.

Definition dateSep (s : jsstring) : option jsstring :=
  match s with
  | c :: r => if isDateSep c then Some r else None
  | [] => None
  end.

(** [dateStr.match(format)]: the three captured groups. *)
Definition matchFormat (f : DateFormat) (s : jsstring)
  : option (jsstring * jsstring * jsstring) :=
  let '(b1, b2, b3) := f in
  match digitGroup b1 s with
  | None => None
  | Some (p1, r1) =>
      match dateSep r1 with
      | None => None
      | Some r1' =>
          match digitGroup b2 r1' with
          | None => None
          | Some (p2, r2) =>
              match dateSep r2 with
              | None => None
              | Some r2' =>
                  match digitGroup b3 r2' with
                  | Some (p3, []) => Some (p1, p2, p3)
                  | _ => None
                  end
              end
          end
      end
  end.

(** [parseAmount]: the dollar, pound (U+00A3) and euro (U+20AC) signs, the
    comma and the white-space characters are removed everywhere;
    a string that starts with ["("] and ends with [")"] loses both and
    gets a leading ["-"]; [parseFloat] reads the result. *)
Definition isStripped (c : N) : bool :=
  ((c =? 36) || (c =? 163) || (c =? 8364) || (c =? 44))%N || isWhiteSpace c.

(** [s.slice(1, -1)] *)
Definition slice_1_m1 (s : jsstring) : jsstring := removelast (tl s).

Definition cleanAmount (amountStr : jsstring) : jsstring :=
  let cleaned := filter (fun c => negb (isStripped c)) amountStr in
  if startsWith cleaned (u "(") && endsWith cleaned (u ")")
  then u "-" ++ slice_1_m1 cleaned
  else cleaned.

Definition parseAmount (amountStr : jsstring) : number :=
  parseFloat (cleanAmount amountStr).

Section Parser.

(** [String.prototype.toLowerCase] *)
Variable toLowerCase : jsstring -> jsstring.

(** [new Date(s).getTime()]: [None] is the invalid date ([NaN]). *)
Variable DateCtor : jsstring -> option Date.

(** The predicate handed to [headers.find]. *)
Definition headerMatches (variations : list jsstring) (header : jsstring)
  : bool :=
  existsb (fun v => includes (toLowerCase header) v) variations.

(** One iteration of the loop of [detectColumnMappings]. *)
Definition detectField (variations : list jsstring) (headers : list jsstring)
  : option jsstring :=
  match find (headerMatches variations) headers with
  | Some m => if truthy_string m then Some m else None
  | None => None
  end.

Definition detectColumnMappings (headers : list jsstring) : ColumnMap :=
  {| cm_date := detectField (COLUMN_MAPPINGS FDate) headers;
     cm_merchant := detectField (COLUMN_MAPPINGS FMerchant) headers;
     cm_description := detectField (COLUMN_MAPPINGS FDescription) headers;
     cm_amount := detectField (COLUMN_MAPPINGS FAmount) headers |}.

(** The loop over [usFormats] in [parseDate]. *)
Fixpoint parseDate_formats (formats : list DateFormat) (dateStr : jsstring)
  : option Date :=
  match formats with
  | [] => None
  | format :: rest =>
      match matchFormat format dateStr with
      | Some (p1, p2, p3) =>
          match DateCtor (p1 ++ u "/" ++ p2 ++ u "/" ++ p3) with
          | Some date1 => Some date1
          | None =>
              match DateCtor (p3 ++ u "/" ++ p1 ++ u "/" ++ p2) with
              | Some date2 => Some date2
              | None => parseDate_formats rest dateStr
              end
          end
      | None => parseDate_formats rest dateStr
      end
  end.

Definition parseDate (dateStr : jsstring) : option Date :=
  match DateCtor dateStr with
  | Some isoDate => Some isoDate
  | None => parseDate_formats usFormats dateStr
  end.

Definition parseRow (row : Row) (columnMap : ColumnMap) : RowOutcome :=
  let dateStr := row_at row (cm_date columnMap) in
  let amountStr := row_at row (cm_amount columnMap) in
  let merchant := or_else (row_at row (cm_merchant columnMap)) (u "Unknown") in
  let description := or_else (row_at row (cm_description columnMap)) merchant in
  match dateStr, amountStr with
  | Some dateStr, Some amountStr =>
      if negb (truthy_string dateStr) || negb (truthy_string amountStr)
      then Skipped
      else
        match parseDate dateStr with
        | None => Threw (u "Invalid date format: " ++ dateStr)
        | Some date =>
            let amount := parseAmount amountStr in
            if isNaN amount
            then Threw (u "Invalid amount: " ++ amountStr)
            else Parsed {| tx_date := date;
                           tx_merchant := trim merchant;
                           tx_description := trim description;
                           tx_amount := amount;
                           tx_rawData := row |}
        end
  | _, _ => Skipped (* an [undefined] cell is falsy as well *)
  end.

(** [result.data.forEach((row, index) => ...)] over the two arrays
    [transactions] and [errors]. *)
Fixpoint forEach_rows (columnMap : ColumnMap) (rows : list Row) (index : Z)
    (acc : list ParsedTransaction * list jsstring)
  : list ParsedTransaction * list jsstring :=
  match rows with
  | [] => acc
  | row :: rest =>
      forEach_rows columnMap rest (index + 1)
        match parseRow row columnMap with
        | Parsed transaction => (fst acc ++ [transaction], snd acc)
        | Skipped => acc
        | Threw message =>
            (fst acc,
             snd acc ++ [u "Row " ++ Z_toString (index + 2) ++ u ": " ++ message])
        end
  end.

(** [`Row ${error.row}: ${error.message}`] *)
Definition papaErrorLine (e : PapaError) : jsstring :=
  u "Row "
  ++ match pe_row e with Some r => Z_toString r | None => u "undefined" end
  ++ u ": " ++ pe_message e.

Definition requiredColumnsError : jsstring :=
  u "Could not detect required columns. Please ensure CSV has date and amount columns.".

(** [parseCSV], from the outcome of the tokenizer call on [fileContent]. *)
Definition parseCSV (papa : PapaOutcome) : CSVParseResult :=
  match papa with
  | PapaReturned result =>
      let errors0 := List.map papaErrorLine (papa_errors result) in
      let headers := match meta_fields result with Some f => f | None => [] end in
      let columnMap := detectColumnMappings headers in
      match cm_date columnMap, cm_amount columnMap with
      | Some _, Some _ =>
          let (transactions, errors) :=
            forEach_rows columnMap (papa_data result) 0 ([], errors0) in
          {| success := Nat.eqb (List.length errors) 0;
             transactions := transactions;
             errors := errors |}
      | _, _ =>
          {| success := false;
             transactions := [];
             errors := errors0 ++ [requiredColumnsError] |}
      end
  | PapaThrew message =>
      {| success := false;
         transactions := [];
         errors :=
           [u "Failed to parse CSV: "
            ++ match message with Some m => m | None => u "Unknown error" end] |}
  end.

End Parser.

End CsvParser.

(* ================================================================== *)
(** ** The host's [Date] constructor on the shapes the parser names *)
(* ================================================================== *)

Module HostDate.
Import CsvParser.
Local Open Scope Z_scope.

Definition msPerDay : Z := 86400000.
Definition msPerMinute : Z := 60000.

(** Day number (days since 1970-01-01) of the civil date [y]-[m]-[d], for
    a month in 1..12; a day past the end of the month runs on into the
    next one, as [MakeDay] does. *)
Definition MakeDay (y m d : Z) : Z :=
  let y' := if m <=? 2 then y - 1 else y in
  let era := y' / 400 in
  let yoe := y' - era * 400 in
  let mp := if m <=? 2 then m + 9 else m - 3 in
  let doy := (153 * mp + 2) / 5 + d - 1 in
  let doe := yoe * 365 + yoe / 4 - yoe / 100 + doy in
  era * 146097 + doe - 719468.

(** Civil date (year, month, day) of a day number. *)
Definition civilOfDay (z : Z) : Z * Z * Z :=
  let z' := z + 719468 in
  let era := z' / 146097 in
  let doe := z' - era * 146097 in
  let yoe := (doe - doe / 1460 + doe / 36524 - doe / 146096) / 365 in
  let doy := doe - (365 * yoe + yoe / 4 - yoe / 100) in
  let mp := (5 * doy + 2) / 153 in
  let d := doy - (153 * mp + 2) / 5 + 1 in
  let m := if mp <? 10 then mp + 3 else mp - 9 in
  (if m <=? 2 then yoe + era * 400 + 1 else yoe + era * 400, m, d).

(** [Day(t)] *)
Definition Day (t : Z) : Z := t / msPerDay.

(** The host's zone as a fixed offset: minutes east of UTC. *)
Definition LocalTime (tzMinutes : Z) (t : Z) : Z := t + tzMinutes * msPerMinute.
Definition UTC (tzMinutes : Z) (t : Z) : Z := t - tzMinutes * msPerMinute.

(** Calendar date shown by [toDateString()] (local) and by
    [toISOString()] (UTC) for the time value [t]. *)
Definition localCalendarDate (tzMinutes : Z) (t : Z) : Z * Z * Z :=
  civilOfDay (Day (LocalTime tzMinutes t)).
Definition utcCalendarDate (t : Z) : Z * Z * Z := civilOfDay (Day t).

Definition validMonthDay (m d : Z) : bool :=
  (1 <=? m) && (m <=? 12) && (1 <=? d) && (d <=? 31).

(** The date-only form [YYYY-MM-DD] of the language's date-time format. *)
Definition isoDateOnly (s : jsstring) : option (Z * Z * Z) :=
  match digitGroup (4, 4)%nat s with
  | Some (y, c1 :: r1) =>
      match digitGroup (2, 2)%nat r1 with
      | Some (m, c2 :: r2) =>
          match digitGroup (2, 2)%nat r2 with
          | Some (d, []) =>
              if ((c1 =? 45) && (c2 =? 45))%N
              then Some (digitsValue y, digitsValue m, digitsValue d)
              else None
          | _ => None
          end
      | _ => None
      end
  | _ => None
  end.

(** [new Date(s).getTime()] in a host whose zone is [tzMinutes], on three
    shapes of [s]:
    - [YYYY-MM-DD] is the date-only form of the language's date-time
      format, which the language reads as midnight UTC;
    - [M/D/YYYY] and [M-D-YYYY] (one or two digits for month and day) are
      not of that format and are read by the fallback parser of the engine
      (V8, under Node.js) as midnight local time;
    - [YYYY/M/D] and the unpadded [YYYY-M-D] likewise.
    Every other string is answered as an invalid date: month names, times
    and two-digit years are outside this model. *)
Definition DateCtor (tzMinutes : Z) (s : jsstring) : option Date :=
  match isoDateOnly s with
  | Some (y, m, d) =>
      if validMonthDay m d then Some (MakeDay y m d * msPerDay) else None
  | None =>
      match matchFormat ((1, 2), (1, 2), (4, 4))%nat s with
      | Some (m, d, y) =>
          let '(y, m, d) := (digitsValue y, digitsValue m, digitsValue d) in
          if validMonthDay m d && (100 <=? y)
          then Some (UTC tzMinutes (MakeDay y m d * msPerDay)) else None
      | None =>
          match matchFormat ((4, 4), (1, 2), (1, 2))%nat s with
          | Some (y, m, d) =>
              let '(y, m, d) := (digitsValue y, digitsValue m, digitsValue d) in
              if validMonthDay m d && (100 <=? y)
              then Some (UTC tzMinutes (MakeDay y m d * msPerDay)) else None
          | None => None
          end
      end
  end.

End HostDate.

(* ================================================================== *)
(** ** Categorizer *)
(* ================================================================== *)

Module Categorizer.

(** Values that [JSON.parse] can deliver, and [undefined]. *)
#[local] Unset Elimination Schemes.
Inductive jsval : Type :=
| VUndefined
| VNull
| VBool (b : bool)
| VNum (n : number)
| VStr (s : jsstring)
| VArr (items : list jsval)
| VObj (props : list (jsstring * jsval)).
#[local] Set Elimination Schemes.

Definition truthy (v : jsval) : bool :=
  match v with
  | VUndefined | VNull => false
  | VBool b => b
  | VNum n => truthy_number n
  | VStr s => truthy_string s
  | VArr _ | VObj _ => true
  end.

(** [a || b] *)
Definition js_or (a b : jsval) : jsval := if truthy a then a else b.

(** The fields are typed [string], [string?], [number], [string]; what a
    remote answer puts into them is copied without a check, hence
    [jsval]. *)
Record CategorizationResult := {
  category : jsval;
  subcategory : jsval;
  confidence : number;
  explanation : jsval
}.

(** [CATEGORIES] *)
Definition CATEGORIES : list (jsstring * list jsstring) :=
  [ (u "Housing", [u "Rent"; u "Mortgage"; u "Utilities"; u "Maintenance"]);
    (u "Groceries", []);
    (u "Dining", [u "Restaurants"; u "Fast Food"; u "Coffee Shops"]);
    (u "Transport", [u "Gas"; u "Public Transit"; u "Parking"; u "Ride Share"]);
    (u "Shopping", [u "Clothing"; u "Electronics"; u "Home Goods"]);
    (u "Health", [u "Medical"; u "Pharmacy"; u "Fitness"]);
    (u "Subscriptions", [u "Streaming"; u "Software"; u "Memberships"]);
    (u "Entertainment", [u "Movies"; u "Events"; u "Hobbies"]);
    (u "Travel", [u "Flights"; u "Hotels"; u "Vacation"]);
    (u "Income", [u "Salary"; u "Freelance"; u "Investment"]);
    (u "Transfers", []) ].

(** [process.env] *)
Record Env := {
  ANTHROPIC_API_KEY : option jsstring;
  OPENAI_API_KEY : option jsstring
}.

(** What the request to a provider comes to: the [fetch], the decoding of
    the body or the access to the text in it throws, or a text is handed
    to [parseCategorizationResponse]; [None] is a text that is not a
    string. *)
Inductive Remote :=
| RemoteThrew
| RemoteText (text : option jsstring).

(** Completion of an asynchronous call, of a provider or of
    [categorizeTransaction] itself: a result, or an exception in place of
    one. *)
Inductive Completion :=
| Thrown
| Returned (r : CategorizationResult).

(** [text.match(/\{[\s\S]*\}/)]: from the first ["{"] to the last ["}"]
    after it. *)
Fixpoint dropUntil (c : N) (s : jsstring) : jsstring :=
  match s with
  | [] => []
  | d :: s' => if (d =? c)%N then s else dropUntil c s'
  end.

Definition jsonMatch (text : jsstring) : option jsstring :=
  match dropUntil 123 text with
  | [] => None
  | open :: after =>
      match dropUntil 125 (rev after) with
      | [] => None
      | body => Some (open :: rev body)
      end
  end.

(** Own property of an object. *)
Fixpoint prop_get (props : list (jsstring * jsval)) (key : jsstring) : jsval :=
  match props with
  | [] => VUndefined
  | (k, v) :: rest => if str_eqb k key then v else prop_get rest key
  end.

(** The properties that [result.key] reads: [None] is the [TypeError] of
    reading a property of [null]; values other than objects have none of
    the four keys. *)
Definition properties (result : jsval) : option (list (jsstring * jsval)) :=
  match result with
  | VUndefined | VNull => None
  | VObj props => Some props
  | _ => Some []
  end.

Definition num (m e : Z) : number := decimal m e.

(** The object of the [catch] branch of [parseCategorizationResponse]. *)
Definition parseFailure : CategorizationResult :=
  {| category := VStr (u "Uncategorized");
     subcategory := VUndefined;
     confidence := num 0 0;
     explanation := VStr (u "Failed to parse AI response") |}.

Section Remote.

Variable toLowerCase : jsstring -> jsstring.

(** [JSON.parse]: [None] is a [SyntaxError]. *)
Variable JSON_parse : jsstring -> option jsval.

(** [ToNumber] of a non-empty string, and of an array or object. *)
Variable StringToNumber : jsstring -> number.
Variable ObjectToNumber : jsval -> number.

(** The two providers, as functions of the prompt. *)
Variable claude : jsstring -> Remote.
Variable openai : jsstring -> Remote.

(** [buildCategorizationPrompt]; no statement below depends on the text
    of the prompt. *)
Variable buildCategorizationPrompt : jsstring -> jsstring -> number -> jsstring.

Definition ToNumber (v : jsval) : number :=
  match v with
  | VUndefined => NaN
  | VNull => num 0 0
  | VBool b => if b then num 1 0 else num 0 0
  | VNum n => n
  | VStr s => match s with [] => num 0 0 | _ => StringToNumber s end
  | VArr _ | VObj _ => ObjectToNumber v
  end.

Definition parseCategorizationResponse (text : option jsstring)
  : CategorizationResult :=
  match text with
  | None => parseFailure
  | Some text =>
      match jsonMatch text with
      | None => parseFailure
      | Some json =>
          match JSON_parse json with
          | None => parseFailure
          | Some result =>
              match properties result with
              | None => parseFailure
              | Some props =>
                  {| category := prop_get props (u "category");
                     subcategory :=
                       js_or (prop_get props (u "subcategory")) VUndefined;
                     confidence :=
                       Math_max (num 0 0)
                         (Math_min (num 1 0)
                            (ToNumber (js_or (prop_get props (u "confidence"))
                                             (VNum (num 5 (-1))))));
                     explanation :=
                       js_or (prop_get props (u "explanation"))
                             (VStr (u "AI categorization")) |}
              end
          end
      end
  end.

Definition categorizeWithClaude (prompt : jsstring) : Completion :=
  match claude prompt with
  | RemoteThrew => Thrown
  | RemoteText text => Returned (parseCategorizationResponse text)
  end.

Definition categorizeWithOpenAI (prompt : jsstring) : Completion :=
  match openai prompt with
  | RemoteThrew => Thrown
  | RemoteText text => Returned (parseCategorizationResponse text)
  end.

Definition rule (cat : string) (sub : jsval) (conf : number) (why : string)
  : CategorizationResult :=
  {| category := VStr (u cat); subcategory := sub;
     confidence := conf; explanation := VStr (u why) |}.

Definition ruleBasedCategorization
    (merchant description : jsstring) (amount : number)
  : CategorizationResult :=
  let text := toLowerCase (merchant ++ u " " ++ description) in
  if includes text (u "grocery") || includes text (u "market")
     || includes text (u "whole foods") || includes text (u "trader joe")
  then rule "Groceries" VUndefined (num 7 (-1)) "Keyword match: grocery store"
  else if includes text (u "restaurant") || includes text (u "cafe")
          || includes text (u "coffee") || includes text (u "food")
  then rule "Dining" VUndefined (num 6 (-1)) "Keyword match: dining establishment"
  else if includes text (u "gas") || includes text (u "fuel")
          || includes text (u "shell") || includes text (u "chevron")
  then rule "Transport" (VStr (u "Gas")) (num 7 (-1)) "Keyword match: gas station"
  else if includes text (u "netflix") || includes text (u "spotify")
          || includes text (u "subscription") || includes text (u "hulu")
  then rule "Subscriptions" VUndefined (num 8 (-1))
            "Keyword match: subscription service"
  else if num_gt amount (num 0 0)
  then rule "Income" VUndefined (num 5 (-1)) "Positive amount suggests income"
  else rule "Uncategorized" VUndefined (num 0 0) "No matching rules found".

(** [categorizeTransaction].  The branch taken without a key, line 55 of
    the source, reads
    [return ruleBased Categorization(merchant, description, amount);]:
    two identifiers in a row, which is no expression of the language, and
    nothing named [ruleBased] or [Categorization] is declared.  A parser
    refuses the statement and one that recovers from the error leaves
    [return ruleBased;], the use of an undeclared name: either way the
    branch ends in an exception and hands no result to the caller.  The
    rest of the function is embedded as it is written: a provider's result
    is returned, and a provider's exception is caught and answered by
    [ruleBasedCategorization]. *)
Definition categorizeTransaction (env : Env)
    (merchant description : jsstring) (amount : number)
  : Completion :=
  let apiKey :=
    if truthy_opt (ANTHROPIC_API_KEY env)
    then ANTHROPIC_API_KEY env else OPENAI_API_KEY env in
  if negb (truthy_opt apiKey)
  then Thrown
  else
    let prompt := buildCategorizationPrompt merchant description amount in
    match (if truthy_opt (ANTHROPIC_API_KEY env)
           then categorizeWithClaude prompt
           else categorizeWithOpenAI prompt) with
    | Returned r => Returned r
    | Thrown => Returned (ruleBasedCategorization merchant description amount)
    end.

End Remote.

End Categorizer.

(* ================================================================== *)
(** ** Host encoders: UTF-8, SHA-256, number to text *)
(* ================================================================== *)

Module Host.
Local Open Scope N_scope.

Definition byte_of_N (n : N) : byte :=
  match Byte.of_N (n mod 256) with Some b => b | None => Byte.x00 end.

(** [new TextEncoder().encode(s)]: UTF-8 of the code points of [s]; a
    surrogate that is not part of a pair becomes U+FFFD. *)
Definition replacement : list byte := List.map byte_of_N [239; 191; 189].

Definition isHighSurrogate (c : N) : bool := (55296 <=? c) && (c <=? 56319).
Definition isLowSurrogate (c : N) : bool := (56320 <=? c) && (c <=? 57343).

Definition utf8_of_codepoint (c : N) : list byte :=
  List.map byte_of_N
    (if c <? 128 then [c]
     else if c <? 2048 then [192 + c / 64; 128 + c mod 64]
     else if c <? 65536 then [224 + c / 4096; 128 + (c / 64) mod 64; 128 + c mod 64]
     else [240 + c / 262144; 128 + (c / 4096) mod 64;
           128 + (c / 64) mod 64; 128 + c mod 64]).

Fixpoint TextEncoder_encode (s : jsstring) : list byte :=
  match s with
  | [] => []
  | c :: r =>
      if isHighSurrogate c then
        match r with
        | d :: r' =>
            if isLowSurrogate d
            then utf8_of_codepoint (65536 + (c - 55296) * 1024 + (d - 56320))
                 ++ TextEncoder_encode r'
            else replacement ++ TextEncoder_encode r
        | [] => replacement
        end
      else if isLowSurrogate c then replacement ++ TextEncoder_encode r
      else utf8_of_codepoint c ++ TextEncoder_encode r
  end.

(** SHA-256 (FIPS 180-4) on 32-bit words held in [N]. *)
Definition w32 (x : N) : N := x mod 4294967296.
Definition add32 (x y : N) : N := w32 (x + y).
Definition rotr (n x : N) : N := N.lor (N.shiftr x n) (w32 (N.shiftl x (32 - n))).
Definition not32 (x : N) : N := N.lxor x 4294967295.

Definition Ch (x y z : N) : N := N.lxor (N.land x y) (N.land (not32 x) z).
Definition Maj (x y z : N) : N :=
  N.lxor (N.lxor (N.land x y) (N.land x z)) (N.land y z).
Definition Sigma0 (x : N) : N := N.lxor (N.lxor (rotr 2 x) (rotr 13 x)) (rotr 22 x).
Definition Sigma1 (x : N) : N := N.lxor (N.lxor (rotr 6 x) (rotr 11 x)) (rotr 25 x).
Definition sigma0 (x : N) : N := N.lxor (N.lxor (rotr 7 x) (rotr 18 x)) (N.shiftr x 3).
Definition sigma1 (x : N) : N := N.lxor (N.lxor (rotr 17 x) (rotr 19 x)) (N.shiftr x 10).

Definition K256 : list N :=
    [1116352408; 1899447441; 3049323471; 3921009573; 961987163; 1508970993;
     2453635748; 2870763221; 3624381080; 310598401; 607225278; 1426881987;
     1925078388; 2162078206; 2614888103; 3248222580; 3835390401; 4022224774;
     264347078; 604807628; 770255983; 1249150122; 1555081692; 1996064986;
     2554220882; 2821834349; 2952996808; 3210313671; 3336571891; 3584528711;
     113926993; 338241895; 666307205; 773529912; 1294757372; 1396182291;
     1695183700; 1986661051; 2177026350; 2456956037; 2730485921; 2820302411;
     3259730800; 3345764771; 3516065817; 3600352804; 4094571909; 275423344;
     430227734; 506948616; 659060556; 883997877; 958139571; 1322822218;
     1537002063; 1747873779; 1955562222; 2024104815; 2227730452; 2361852424;
     2428436474; 2756734187; 3204031479; 3329325298].

Definition H256 : list N :=
    [1779033703; 3144134277; 1013904242; 2773480762; 1359893119; 2600822924; 528734635; 1541459225].

(** Message padding: a one bit, zeros up to 56 modulo 64 bytes, then the
    bit length as a 64-bit big-endian integer. *)
Definition be_bytes (count : nat) (x : N) : list N :=
  List.map (fun i => (x / 256 ^ N.of_nat i) mod 256) (rev (seq 0 count)).

Definition pad (message : list N) : list N :=
  let len := N.of_nat (List.length message) in
  let zeros := (64 - (len + 9) mod 64) mod 64 in
  message ++ [128] ++ repeat 0 (N.to_nat zeros) ++ be_bytes 8 (8 * len).

Fixpoint words (bytes : list N) : list N :=
  match bytes with
  | a :: b :: c :: d :: rest =>
      (((a * 256 + b) * 256 + c) * 256 + d) :: words rest
  | _ => []
  end.

Fixpoint blocks (fuel : nat) (ws : list N) : list (list N) :=
  match fuel, ws with
  | S fuel', _ :: _ => firstn 16 ws :: blocks fuel' (skipn 16 ws)
  | _, _ => []
  end.

(** Message schedule, newest word first. *)
Fixpoint schedule (count : nat) (recent : list N) : list N :=
  match count with
  | O => recent
  | S count' =>
      let at_ i := nth i recent 0 in
      schedule count'
        (add32 (add32 (sigma1 (at_ 1%nat)) (at_ 6%nat))
               (add32 (sigma0 (at_ 14%nat)) (at_ 15%nat)) :: recent)
  end.

Definition State := (N * N * N * N * N * N * N * N)%type.

Definition round (s : State) (kw : N * N) : State :=
  let '(a, b, c, d, e, f, g, h) := s in
  let t1 := add32 (add32 (add32 h (Sigma1 e)) (add32 (Ch e f g) (fst kw))) (snd kw) in
  let t2 := add32 (Sigma0 a) (Maj a b c) in
  (add32 t1 t2, a, b, c, add32 d t1, e, f, g).

Definition compress (s : State) (block : list N) : State :=
  let w := rev (schedule 48 (rev block)) in
  let '(a, b, c, d, e, f, g, h) := fold_left round (combine K256 w) s in
  let '(a0, b0, c0, d0, e0, f0, g0, h0) := s in
  (add32 a0 a, add32 b0 b, add32 c0 c, add32 d0 d,
   add32 e0 e, add32 f0 f, add32 g0 g, add32 h0 h).

Definition initial : State :=
  match H256 with
  | [a; b; c; d; e; f; g; h] => (a, b, c, d, e, f, g, h)
  | _ => (0, 0, 0, 0, 0, 0, 0, 0)
  end.

(** [crypto.subtle.digest("SHA-256", buffer)] *)
Definition SHA256 (message : list byte) : list byte :=
  let ws := words (pad (List.map Byte.to_N message)) in
  let '(a, b, c, d, e, f, g, h) :=
    fold_left compress (blocks (List.length ws) ws) initial in
  List.map byte_of_N
    (be_bytes 4 a ++ be_bytes 4 b ++ be_bytes 4 c ++ be_bytes 4 d
     ++ be_bytes 4 e ++ be_bytes 4 f ++ be_bytes 4 g ++ be_bytes 4 h).

(** [`${x}`] for a number: on integers and on decimals of up to fifteen
    significant digits between 1e-6 and 1e21 the host prints the plain
    decimal expansion, which is what this computes.  (A value without a
    finite expansion is no double; it is printed as ["NaN"].) *)
Fixpoint decimalPlaces (fuel : nat) (k : Z) (d : Z) : option Z :=
  match fuel with
  | O => None
  | S fuel' =>
      if ((10 ^ k) mod d =? 0)%Z then Some k
      else decimalPlaces fuel' (k + 1)%Z d
  end.

Definition Number_toString (x : number) : jsstring :=
  match x with
  | NaN => u "NaN"
  | Infinity neg => if neg then u "-Infinity" else u "Infinity"
  | Fin q =>
      let n := Qnum (this q) in
      let d := Zpos (Qden (this q)) in
      match decimalPlaces 40 0%Z d with
      | None => u "NaN"
      | Some k =>
          let digits := Z_toString (Z.abs n * (10 ^ k / d))%Z in
          let k := Z.to_nat k in
          let padded := repeat 48 (S k - List.length digits) ++ digits in
          let ip := firstn (List.length padded - k) padded in
          let fp := skipn (List.length padded - k) padded in
          (if (n <? 0)%Z then u "-" else [])
          ++ ip ++ match fp with [] => [] | _ => u "." ++ fp end
      end
  end.

End Host.

(* ================================================================== *)
(** ** Deduplication hash of the transactions route *)
(* ================================================================== *)

Module DedupHash.

Definition hexDigit (d : N) : N := if (d <? 10)%N then (48 + d)%N else (87 + d)%N.

Fixpoint toHex (fuel : nat) (n : N) (acc : jsstring) : jsstring :=
  match fuel with
  | O => acc
  | S fuel' =>
      let acc' := hexDigit (n mod 16) :: acc in
      if (n / 16 =? 0)%N then acc' else toHex fuel' (n / 16)%N acc'
  end.

(** [n.toString(16)] for a non-negative integer. *)
Definition toString16 (n : N) : jsstring := toHex (S (N.size_nat n)) n [].

(** [s.padStart(len, fill)] for a one-character [fill]. *)
Definition padStart (len : nat) (fill : N) (s : jsstring) : jsstring :=
  repeat fill (len - List.length s) ++ s.

(** [hashArray.map(...).join("")] *)
Definition hexOfBytes (hashArray : list byte) : jsstring :=
  List.concat (List.map (fun b => padStart 2 48 (toString16 (Byte.to_N b))) hashArray).

(** The characters [0-9a-f], and the value of one. *)
Definition isLowerHex (c : N) : bool :=
  ((48 <=? c) && (c <=? 57) || (97 <=? c) && (c <=? 102))%N.

Definition hexValue (c : N) : N := if (c <=? 57)%N then (c - 48)%N else (c - 87)%N.

(** Reading a hexadecimal string back, two digits to the byte. *)
Fixpoint bytesOfHex (s : jsstring) : list N :=
  match s with
  | h :: l :: rest => (16 * hexValue h + hexValue l)%N :: bytesOfHex rest
  | _ => []
  end.

(** The delimiter of the hash input. *)
Definition hyphen : N := 45%N.

Section Hash.

(** [`${amount}`] *)
Variable Number_toString : number -> jsstring.

(** [new TextEncoder().encode] *)
Variable TextEncoder_encode : jsstring -> list byte.

(** [crypto.subtle.digest("SHA-256", .)] *)
Variable digest_SHA256 : list byte -> list byte.

(** The string handed to the encoder:
    [`${date}-${amount}-${merchant}-${description}`]. *)
Definition hashInput (date : jsstring) (amount : number)
    (merchant description : jsstring) : jsstring :=
  date ++ u "-" ++ Number_toString amount ++ u "-" ++ merchant
  ++ u "-" ++ description.

Definition generateHash (date : jsstring) (amount : number)
    (merchant description : jsstring) : jsstring :=
  let data := hashInput date amount merchant description in
  let dataBuffer := TextEncoder_encode data in
  let hashBuffer := digest_SHA256 dataBuffer in
  hexOfBytes hashBuffer.

End Hash.

End DedupHash.

(* ================================================================== *)
(** ** Definitions that the statements below are phrased with *)
(* ================================================================== *)

Module Policy.
Import CsvParser.

Section Wording.

Variable toLowerCase : jsstring -> jsstring.

(** Column selection as the specification words it: the variants of the
    field are tried in list order, and the first variant that occurs in
    some lower-cased header selects the first such header. *)
Fixpoint variantPriorityField (variations headers : list jsstring)
  : option jsstring :=
  match variations with
  | [] => None
  | v :: rest =>
      match find (fun header => includes (toLowerCase header) v) headers with
      | Some header => Some header
      | None => variantPriorityField rest headers
      end
  end.

End Wording.

(** Amount parsing as the specification words it: after the same cleaning,
    the text is a decimal number or the amount is invalid; anything left
    over after the number makes it invalid. *)
Definition parseAmount_policy (amountStr : jsstring) : number :=
  match scanDecimal (cleanAmount amountStr) with
  | Some (v, []) => v
  | _ => NaN
  end.

(** Both required cells of a row are present and not empty. *)
Definition requiredCellsPresent (columnMap : ColumnMap) (row : Row) : bool :=
  truthy_opt (row_at row (cm_date columnMap))
  && truthy_opt (row_at row (cm_amount columnMap)).

Section RowLists.

Variable DateCtor : jsstring -> option Date.

(** The transactions, and the error lines, that the rows of a file give
    rise to, in row order; [index] is the position of the first row. *)
Definition rowTransactions (columnMap : ColumnMap) (rows : list Row)
  : list ParsedTransaction :=
  flat_map (fun row =>
              match parseRow DateCtor row columnMap with
              | Parsed t => [t]
              | _ => []
              end) rows.

Fixpoint rowErrors (columnMap : ColumnMap) (rows : list Row) (index : Z)
  : list jsstring :=
  match rows with
  | [] => []
  | row :: rest =>
      match parseRow DateCtor row columnMap with
      | Threw message =>
          [u "Row " ++ Z_toString (index + 2) ++ u ": " ++ message]
      | _ => []
      end ++ rowErrors columnMap rest (index + 1)
  end.

End RowLists.

(** Replace the data rows of a tokenizer result. *)
Definition withData (result : PapaResult) (rows : list Row) : PapaResult :=
  {| papa_data := rows;
     papa_errors := papa_errors result;
     meta_fields := meta_fields result |}.

Definition headersOf (result : PapaResult) : list jsstring :=
  match meta_fields result with Some f => f | None => [] end.

Import Categorizer.

(** The outcomes of the rule-based categorization: category, subcategory,
    confidence. *)
Definition ruleOutcomes : list (jsval * jsval * number) :=
  [ (VStr (u "Groceries"), VUndefined, num 7 (-1));
    (VStr (u "Dining"), VUndefined, num 6 (-1));
    (VStr (u "Transport"), VStr (u "Gas"), num 7 (-1));
    (VStr (u "Subscriptions"), VUndefined, num 8 (-1));
    (VStr (u "Income"), VUndefined, num 5 (-1));
    (VStr (u "Uncategorized"), VUndefined, num 0 0) ].

(** Categories of the taxonomy that no rule produces. *)
Definition unreachableCategories : list jsstring :=
  [ u "Housing"; u "Shopping"; u "Health"; u "Entertainment"; u "Travel";
    u "Transfers" ].

End Policy.

(* ================================================================== *)
(** ** Sample inputs, taken from the repository's tests *)
(* ================================================================== *)

Module Samples.
Import CsvParser.

Definition row3 (date merchant amount : string) : Row :=
  [ (u "date", u date); (u "merchant", u merchant); (u "amount", u amount) ].

(** [Date,Merchant,Amount] with a good row, a row with a bad date, a row
    without a date, a row with a bad amount and a second good row. *)
Definition mixedFile : PapaResult :=
  {| papa_data :=
       [ row3 "2024-01-15" "Test1" "-10.00";
         row3 "invalid-date" "Test2" "-20.00";
         row3 "" "Test3" "-30.00";
         row3 "2024-01-16" "Test" "not-a-number";
         row3 "01/17/2024" "Test4" "-40.00" ];
     papa_errors := [];
     meta_fields := Some [u "date"; u "merchant"; u "amount"] |}.

(** [Name,Value] followed by [Test,100]: no date-like header. *)
Definition nameValueFile : PapaResult :=
  {| papa_data := [ [ (u "name", u "Test"); (u "value", u "100") ] ];
     papa_errors := [];
     meta_fields := Some [u "name"; u "value"] |}.

(** The one line [This is not a valid CSV]: a single header, no data row,
    and the tokenizer's report that it found no delimiter, which carries no
    row number. *)
Definition notCsvFile : PapaResult :=
  {| papa_data := [];
     papa_errors :=
       [ {| pe_row := None;
            pe_message :=
              u "Unable to auto-detect delimiting character; defaulted to ','" |} ];
     meta_fields := Some [u "this is not a valid csv"] |}.

(** Midnight UTC of 2024-01-15, as a time value. *)
Definition jan15_utc : Z := 1705276800000.

Import Categorizer.

Definition envNone : Env :=
  {| ANTHROPIC_API_KEY := None; OPENAI_API_KEY := None |}.

Definition envClaude : Env :=
  {| ANTHROPIC_API_KEY := Some (u "test-api-key"); OPENAI_API_KEY := None |}.

(** A provider that answers every prompt with the given text. *)
Definition answering (text : string) : jsstring -> Remote :=
  fun _ => RemoteText (Some (u text)).

(** A provider whose request fails. *)
Definition failing : jsstring -> Remote := fun _ => RemoteThrew.

(** A string literal of JSON. *)
Definition quoted (s : string) : jsstring := [34%N] ++ u s ++ [34%N].

(** The answer [{"category":"Groceries","confidence":0,"explanation":"Test"}]
    and the object it denotes. *)
Definition zeroConfidenceText : jsstring :=
  u "{" ++ quoted "category" ++ u ":" ++ quoted "Groceries" ++ u ","
  ++ quoted "confidence" ++ u ":0," ++ quoted "explanation" ++ u ":"
  ++ quoted "Test" ++ u "}".

Definition zeroConfidenceObject : jsval :=
  VObj [ (u "category", VStr (u "Groceries"));
         (u "confidence", VNum (num 0 0));
         (u "explanation", VStr (u "Test")) ].

(** [JSON.parse] on that one text. *)
Definition JSON_parse_zero (json : jsstring) : option jsval :=
  if str_eqb json zeroConfidenceText then Some zeroConfidenceObject else None.

End Samples.

(* ================================================================== *)
(** ** The prompt of the categorizer *)
(* ================================================================== *)

Module Prompt.
Import Categorizer.

Definition newline : jsstring := [10%N].

(** A piece of text between double quotes. *)
Definition inQuotes (s : jsstring) : jsstring := [34%N] ++ s ++ [34%N].

(** [items.join(sep)] *)
Fixpoint join (sep : jsstring) (items : list jsstring) : jsstring :=
  match items with
  | [] => []
  | [x] => x
  | x :: rest => x ++ sep ++ join sep rest
  end.

(** One line of the list of categories:
    [`- ${c.name}${c.subcategories.length > 0 ? ` (${...})` : ""}`]. *)
Definition categoryLine (c : jsstring * list jsstring) : jsstring :=
  u "- " ++ fst c
  ++ match snd c with
     | [] => []
     | _ :: _ => u " (" ++ join (u ", ") (snd c) ++ u ")"
     end.

(** The text of the prompt before the merchant of the transaction, and
    the text after its amount. *)
Definition promptHead : jsstring :=
  join newline
    [ u "You are a financial transaction categorizer. Categorize the following transaction into one of these categories: "
      ++ join (u ", ") (List.map fst CATEGORIES) ++ u ".";
      [];
      u "Available categories and subcategories:";
      join newline (List.map categoryLine CATEGORIES);
      [];
      u "Examples:";
      u "Merchant: " ++ inQuotes (u "Whole Foods") ++ u ", Description: "
      ++ inQuotes (u "Grocery shopping") ++ u ", Amount: -87.50";
      u "Category: Groceries, Confidence: 0.95, Explanation: Clear grocery store purchase";
      [];
      u "Merchant: " ++ inQuotes (u "Netflix") ++ u ", Description: "
      ++ inQuotes (u "Monthly subscription") ++ u ", Amount: -15.99";
      u "Category: Subscriptions, Subcategory: Streaming, Confidence: 0.99, Explanation: Recurring streaming service charge";
      [];
      u "Merchant: " ++ inQuotes (u "Shell") ++ u ", Description: "
      ++ inQuotes (u "Fuel") ++ u ", Amount: -45.00";
      u "Category: Transport, Subcategory: Gas, Confidence: 0.92, Explanation: Gas station fuel purchase";
      [];
      u "Now categorize this transaction:";
      u "Merchant: " ].

Definition promptTail : jsstring :=
  join newline
    [ [];
      [];
      u "Respond in JSON format:";
      u "{";
      u "  " ++ inQuotes (u "category") ++ u ": " ++ inQuotes (u "category name") ++ u ",";
      u "  " ++ inQuotes (u "subcategory") ++ u ": "
      ++ inQuotes (u "subcategory name or null") ++ u ",";
      u "  " ++ inQuotes (u "confidence") ++ u ": 0.0-1.0,";
      u "  " ++ inQuotes (u "explanation") ++ u ": " ++ inQuotes (u "brief explanation");
      u "}" ].

Section Build.

(** [`${amount}`] *)
Variable Number_toString : number -> jsstring.

(** [buildCategorizationPrompt]: the lines of the template literal. *)
Definition buildCategorizationPrompt
    (merchant description : jsstring) (amount : number) : jsstring :=
  let categoryList := join (u ", ") (List.map fst CATEGORIES) in
  join newline
    [ u "You are a financial transaction categorizer. Categorize the following transaction into one of these categories: "
      ++ categoryList ++ u ".";
      [];
      u "Available categories and subcategories:";
      join newline (List.map categoryLine CATEGORIES);
      [];
      u "Examples:";
      u "Merchant: " ++ inQuotes (u "Whole Foods") ++ u ", Description: "
      ++ inQuotes (u "Grocery shopping") ++ u ", Amount: -87.50";
      u "Category: Groceries, Confidence: 0.95, Explanation: Clear grocery store purchase";
      [];
      u "Merchant: " ++ inQuotes (u "Netflix") ++ u ", Description: "
      ++ inQuotes (u "Monthly subscription") ++ u ", Amount: -15.99";
      u "Category: Subscriptions, Subcategory: Streaming, Confidence: 0.99, Explanation: Recurring streaming service charge";
      [];
      u "Merchant: " ++ inQuotes (u "Shell") ++ u ", Description: "
      ++ inQuotes (u "Fuel") ++ u ", Amount: -45.00";
      u "Category: Transport, Subcategory: Gas, Confidence: 0.92, Explanation: Gas station fuel purchase";
      [];
      u "Now categorize this transaction:";
      u "Merchant: " ++ inQuotes merchant;
      u "Description: " ++ inQuotes description;
      u "Amount: " ++ Number_toString amount;
      [];
      u "Respond in JSON format:";
      u "{";
      u "  " ++ inQuotes (u "category") ++ u ": " ++ inQuotes (u "category name") ++ u ",";
      u "  " ++ inQuotes (u "subcategory") ++ u ": "
      ++ inQuotes (u "subcategory name or null") ++ u ",";
      u "  " ++ inQuotes (u "confidence") ++ u ": 0.0-1.0,";
      u "  " ++ inQuotes (u "explanation") ++ u ": " ++ inQuotes (u "brief explanation");
      u "}" ].

End Build.

End Prompt.

(* ================================================================== *)
(** ** The transactions route *)
(* ================================================================== *)

Module Route.
Import Categorizer DedupHash.

(** An awaited call: it throws (the promise rejects) or gives a value. *)
Inductive Outcome (A : Type) : Type :=
| Throws
| Gives (a : A).
Arguments Throws {A}.
Arguments Gives {A} a.

(** What [auth()] resolves to: the Clerk user id and, for [GET], the
    [emailAddress] of each entry of [emailAddresses]. *)
Record AuthInfo := {
  userId : option jsstring;
  emailAddresses : option (list (option jsstring))
}.

(** [emailAddresses?.[0]?.emailAddress || ""] *)
Definition firstEmail (a : AuthInfo) : jsstring :=
  match emailAddresses a with
  | Some (first :: _) => or_else first []
  | _ => []
  end.

Section Handlers.

(** The database behind [prisma], its user ids and its transaction
    records. *)
Variable Store : Type.
Variable UserId : Type.
Variable Transaction : Type.

(** The [data] of [prisma.transaction.create]. *)
Record TransactionData := {
  td_userId : UserId;
  td_date : option Z;
  td_amount : jsval;
  td_merchantRaw : jsval;
  td_merchantNormalized : jsval;
  td_description : jsval;
  td_categoryId : jsval;
  td_hash : jsstring
}.

(** [prisma.user.findUnique({where: {clerkId}})], giving [user.id];
    [prisma.user.create]; [prisma.transaction.findUnique({where: {hash}})];
    [prisma.transaction.create]; and the [findMany] of [GET] with its fixed
    options.  A call that throws leaves the database as it was. *)
Variable findUser : Store -> jsstring -> Outcome (option UserId).
Variable createUser : Store -> jsstring -> jsstring -> Outcome (Store * UserId).
Variable findTransaction : Store -> jsstring -> Outcome (option Transaction).
Variable createTransaction :
  Store -> TransactionData -> Outcome (Store * Transaction).
Variable findMany : Store -> UserId -> Outcome (list Transaction).

(** [`${x}`] of a number, and of an array or object ([None] when the
    conversion throws); [new Date(x).getTime()]. *)
Variable Number_toString : number -> jsstring.
Variable ObjectToString : jsval -> option jsstring.
Variable DateOf : jsval -> option Z.
Variable TextEncoder_encode : jsstring -> list byte.
Variable digest_SHA256 : list byte -> list byte.

(** [`${x}`] for a value of the request body. *)
Definition templateText (v : jsval) : option jsstring :=
  match v with
  | VUndefined => Some (u "undefined")
  | VNull => Some (u "null")
  | VBool b => Some (if b then u "true" else u "false")
  | VNum n => Some (Number_toString n)
  | VStr s => Some s
  | VArr _ | VObj _ => ObjectToString v
  end.

(** [generateHash] on the four values as the body delivers them, which
    need not have the declared types; [None] when a conversion throws. *)
Definition generateHash_values (date amount merchant description : jsval)
  : option jsstring :=
  match templateText date, templateText amount,
        templateText merchant, templateText description with
  | Some d, Some a, Some m, Some ds =>
      Some (hexOfBytes
              (digest_SHA256
                 (TextEncoder_encode
                    (d ++ u "-" ++ a ++ u "-" ++ m ++ u "-" ++ ds))))
  | _, _, _, _ => None
  end.

Inductive ResponseBody :=
| ErrorBody (error : jsstring)
| TransactionBody (transaction : Transaction)
| TransactionsBody (transactions : list Transaction).

Record Response := {
  status : Z;
  body : ResponseBody
}.

Definition errorResponse (message : string) (code : Z) : Response :=
  {| status := code; body := ErrorBody (u message) |}.

Definition internalError : Response :=
  errorResponse "Internal server error" 500.

(** [POST]: the database before, what [auth()] and [request.json()] come
    to; the database after, and the response. *)
Definition POST (store : Store) (authResult : Outcome AuthInfo)
    (bodyResult : Outcome jsval) : Store * Response :=
  match authResult with
  | Throws => (store, internalError)
  | Gives authInfo =>
      match userId authInfo with
      | None => (store, errorResponse "Unauthorized" 401)
      | Some clerkId =>
          if negb (truthy_string clerkId)
          then (store, errorResponse "Unauthorized" 401)
          else
            match bodyResult with
            | Throws => (store, internalError)
            | Gives requestBody =>
                match properties requestBody with
                | None => (store, internalError)
                | Some props =>
                    let date := prop_get props (u "date") in
                    let amount := prop_get props (u "amount") in
                    let merchant := prop_get props (u "merchant") in
                    let description := prop_get props (u "description") in
                    let categoryId := prop_get props (u "categoryId") in
                    if negb (truthy date) || negb (truthy amount)
                       || negb (truthy merchant)
                    then (store, errorResponse "Missing required fields" 400)
                    else
                      match findUser store clerkId with
                      | Throws => (store, internalError)
                      | Gives None => (store, errorResponse "User not found" 404)
                      | Gives (Some user) =>
                          match generateHash_values date amount merchant description with
                          | None => (store, internalError)
                          | Some hash =>
                              match findTransaction store hash with
                              | Throws => (store, internalError)
                              | Gives (Some _) =>
                                  (store, errorResponse "Duplicate transaction" 409)
                              | Gives None =>
                                  match createTransaction store
                                          {| td_userId := user;
                                             td_date := DateOf date;
                                             td_amount := amount;
                                             td_merchantRaw := merchant;
                                             td_merchantNormalized := merchant;
                                             td_description := js_or description merchant;
                                             td_categoryId := categoryId;
                                             td_hash := hash |} with
                                  | Throws => (store, internalError)
                                  | Gives (store', transaction) =>
                                      (store',
                                       {| status := 201;
                                          body := TransactionBody transaction |})
                                  end
                              end
                          end
                      end
                end
            end
      end
  end.

(** The end of [GET], once the user is known. *)
Definition fetchTransactions (store : Store) (user : UserId)
  : Store * Response :=
  match findMany store user with
  | Throws => (store, internalError)
  | Gives transactions =>
      (store, {| status := 200; body := TransactionsBody transactions |})
  end.

(** [GET]: [auth()] is awaited a second time when the user is new. *)
Definition GET (store : Store) (authResult authAgain : Outcome AuthInfo)
  : Store * Response :=
  match authResult with
  | Throws => (store, internalError)
  | Gives authInfo =>
      match userId authInfo with
      | None => (store, errorResponse "Unauthorized" 401)
      | Some clerkId =>
          if negb (truthy_string clerkId)
          then (store, errorResponse "Unauthorized" 401)
          else
            match findUser store clerkId with
            | Throws => (store, internalError)
            | Gives (Some user) => fetchTransactions store user
            | Gives None =>
                match authAgain with
                | Throws => (store, internalError)
                | Gives again =>
                    match createUser store clerkId (firstEmail again) with
                    | Throws => (store, internalError)
                    | Gives (store', user) => fetchTransactions store' user
                    end
                end
            end
      end
  end.

End Handlers.

(** A database kept as two lists, whose calls never throw: the users by
    Clerk id (the id doubles as the user's id) with their e-mail address,
    and the transactions as their creation data. *)
Definition ListStore : Type :=
  (list (jsstring * jsstring) * list (TransactionData jsstring))%type.

Definition list_findUser (s : ListStore) (clerkId : jsstring)
  : Outcome (option jsstring) :=
  Gives (option_map fst (find (fun entry => str_eqb (fst entry) clerkId) (fst s))).

Definition list_createUser (s : ListStore) (clerkId email : jsstring)
  : Outcome (ListStore * jsstring) :=
  Gives ((fst s ++ [(clerkId, email)], snd s), clerkId).

Definition list_findTransaction (s : ListStore) (hash : jsstring)
  : Outcome (option (TransactionData jsstring)) :=
  Gives (find (fun t => str_eqb (td_hash t) hash) (snd s)).

Definition list_createTransaction (s : ListStore)
    (data : TransactionData jsstring)
  : Outcome (ListStore * TransactionData jsstring) :=
  Gives ((fst s, snd s ++ [data]), data).

Definition list_findMany (s : ListStore) (user : jsstring)
  : Outcome (list (TransactionData jsstring)) :=
  Gives (firstn 100 (filter (fun t => str_eqb (td_userId t) user) (snd s))).

End Route.

(* ================================================================== *)
(** ** Sample requests *)
(* ================================================================== *)

Module RouteSamples.
Import Categorizer Route.

(** One known user and no transaction. *)
Definition oneUser : ListStore := ([ (u "user_1", u "a@example.com") ], []).

(** No user at all. *)
Definition noUser : ListStore := ([], []).

Definition signedIn : AuthInfo :=
  {| userId := Some (u "user_1");
     emailAddresses := Some [ Some (u "a@example.com") ] |}.

Definition signedOut : AuthInfo :=
  {| userId := None; emailAddresses := None |}.

(** [{date: "2024-01-15", amount: -87.5, merchant: "Whole Foods"}], the
    same with the description ["undefined"], and the same with amount 0. *)
Definition groceryBody : jsval :=
  VObj [ (u "date", VStr (u "2024-01-15"));
         (u "amount", VNum (num (-875) (-1)));
         (u "merchant", VStr (u "Whole Foods")) ].

Definition groceryBodyDescribed : jsval :=
  VObj [ (u "date", VStr (u "2024-01-15"));
         (u "amount", VNum (num (-875) (-1)));
         (u "merchant", VStr (u "Whole Foods"));
         (u "description", VStr (u "undefined")) ].

Definition zeroAmountBody : jsval :=
  VObj [ (u "date", VStr (u "2024-01-15"));
         (u "amount", VNum (num 0 0));
         (u "merchant", VStr (u "Whole Foods")) ].

(** [new Date(x).getTime()] for a string, in a host at UTC. *)
Definition dateOfValue (v : jsval) : option Z :=
  match v with
  | VStr s => HostDate.DateCtor 0 s
  | _ => None
  end.

(** The handlers over the list database, with UTF-8 and SHA-256. *)
Definition postList :=
  POST list_findUser list_findTransaction list_createTransaction
    Host.Number_toString (fun _ => None) dateOfValue
    Host.TextEncoder_encode Host.SHA256.

Definition getList := GET list_findUser list_createUser list_findMany.

End RouteSamples.

(* ================================================================== *)
(** ** Text utilities *)
(* ================================================================== *)

Module Utils.

(** [text.slice(0, end)] for an integer [end]: a negative [end] counts
    from the end of the text. *)
Definition slice_0 (text : jsstring) (end_ : Z) : jsstring :=
  let len := Z.of_nat (List.length text) in
  let stop := if (end_ <? 0)%Z then Z.max (len + end_) 0 else Z.min end_ len in
  firstn (Z.to_nat stop) text.

(** [truncate], for a [maxLength] that is an integer. *)
Definition truncate (text : jsstring) (maxLength : Z) : jsstring :=
  if (Z.of_nat (List.length text) <=? maxLength)%Z
  then text
  else slice_0 text (maxLength - 3) ++ u "...".

End Utils.

(* ================================================================== *)
(** ** Further notions used in statements *)
(* ================================================================== *)

Module Notions.
Import CsvParser Categorizer.

(** [-x] *)
Definition negate (x : number) : number :=
  match x with
  | NaN => NaN
  | Infinity negative => Infinity (negb negative)
  | Fin q => Fin (- q)
  end.

(** A number between 0 and 1, both included. *)
Definition inUnitInterval (x : number) : Prop :=
  exists q : Qc, x = Fin q /\ Q2Qc 0 <= q /\ q <= Q2Qc 1.

(** A text that neither starts nor ends with white space. *)
Definition noOuterWhiteSpace (s : jsstring) : Prop :=
  (forall c rest, s = c :: rest -> isWhiteSpace c = false)
  /\ (forall c front, s = front ++ [c] -> isWhiteSpace c = false).

(** The sixteen keywords of the rules, in the order of the tests. *)
Definition ruleKeywords : list jsstring :=
  [ u "grocery"; u "market"; u "whole foods"; u "trader joe";
    u "restaurant"; u "cafe"; u "coffee"; u "food";
    u "gas"; u "fuel"; u "shell"; u "chevron";
    u "netflix"; u "spotify"; u "subscription"; u "hulu" ].

(** The variants of the merchant and description fields other than
    ["description"]. *)
Definition otherTextVariants : list jsstring :=
  [ u "merchant"; u "payee"; u "name"; u "vendor";
    u "memo"; u "details"; u "notes" ].

(** Position [i] of the data rows is labelled as line [i + 2]. *)
Definition rowLabel (i : nat) (message : jsstring) : jsstring :=
  u "Row " ++ Z_toString (Z.of_nat i + 2) ++ u ": " ++ message.

End Notions.

(* ================================================================== *)
(** ** Facts about lists and strings *)
(* ================================================================== *)

Section ListFacts.

Context {A : Type}.
Variable p : A -> bool.

Lemma find_first_iff (l : list A) (x : A) :
  find p l = Some x <->
  exists pre post,
    l = pre ++ x :: post /\ p x = true /\ Forall (fun y => p y = false) pre.
Proof.
  induction l as [|a l IH]; simpl.
  - split; [discriminate|].
    intros (pre & post & E & _). destruct pre; discriminate.
  - destruct (p a) eqn:Pa.
    + split.
      * intros [= <-]. exists [], l. auto.
      * intros (pre & post & E & Px & Hpre).
        destruct pre as [|b pre]; simpl in E.
        -- now injection E as ->.
        -- injection E as -> _. inversion Hpre; congruence.
    + rewrite IH. split.
      * intros (pre & post & -> & Px & Hpre).
        exists (a :: pre), post. auto.
      * intros (pre & post & E & Px & Hpre).
        destruct pre as [|b pre]; simpl in E.
        -- injection E as -> _. congruence.
        -- injection E as -> ->. inversion Hpre; subst. eauto.
Qed.

Lemma find_none_iff (l : list A) :
  find p l = None <-> Forall (fun y => p y = false) l.
Proof.
  induction l as [|a l IH]; simpl.
  - split; auto.
  - destruct (p a) eqn:Pa.
    + split; [discriminate|]. inversion 1; congruence.
    + rewrite IH. split; [auto | now inversion 1].
Qed.

End ListFacts.

(* ================================================================== *)
(** ** Column mapping *)
(* ================================================================== *)

Module ColumnMapperFacts.
Import CsvParser Policy.

Section Mapper.

Variable toLowerCase : jsstring -> jsstring.
Hypothesis toLowerCase_empty : toLowerCase [] = [].

Lemma includes_empty_string (v : jsstring) :
  v <> [] -> includes [] v = false.
Proof. destruct v; [congruence | reflexivity]. Qed.

(** No variant occurs in the empty header, so a header that [find]
    returns passes the truthiness test that guards the assignment. *)
Lemma matching_header_truthy (f : Field) (h : jsstring) :
  headerMatches toLowerCase (COLUMN_MAPPINGS f) h = true ->
  truthy_string h = true.
Proof.
  destruct h as [|c h]; [|reflexivity].
  unfold headerMatches. rewrite toLowerCase_empty.
  destruct f; discriminate.
Qed.

Lemma detectField_find (f : Field) (headers : list jsstring) :
  detectField toLowerCase (COLUMN_MAPPINGS f) headers
  = find (headerMatches toLowerCase (COLUMN_MAPPINGS f)) headers.
Proof.
  unfold detectField.
  destruct (find _ headers) as [m|] eqn:E; [|reflexivity].
  apply find_some in E as [_ E].
  now rewrite (matching_header_truthy f m E).
Qed.

Lemma cm_get_detect (f : Field) (headers : list jsstring) :
  cm_get f (detectColumnMappings toLowerCase headers)
  = detectField toLowerCase (COLUMN_MAPPINGS f) headers.
Proof. now destruct f. Qed.

(** C2, as amended: for every header list and every canonical field the
    mapper selects the first header, in header order, whose lower-cased
    text contains at least one of the field's variants; the order of the
    variants plays no part.  The field is unmapped exactly when no header
    contains any variant. *)
Theorem detectColumnMappings_first_matching_header
    (headers : list jsstring) (f : Field) :
  (forall h,
      cm_get f (detectColumnMappings toLowerCase headers) = Some h <->
      exists before after,
        headers = before ++ h :: after
        /\ (exists v, In v (COLUMN_MAPPINGS f)
                      /\ includes (toLowerCase h) v = true)
        /\ Forall (fun h' => forall v, In v (COLUMN_MAPPINGS f) ->
                               includes (toLowerCase h') v = false) before)
  /\ (cm_get f (detectColumnMappings toLowerCase headers) = None <->
      Forall (fun h' => forall v, In v (COLUMN_MAPPINGS f) ->
                         includes (toLowerCase h') v = false) headers).
Proof.
  rewrite cm_get_detect, detectField_find.
  assert (Hno : forall l,
             Forall (fun y => headerMatches toLowerCase (COLUMN_MAPPINGS f) y = false) l
             <-> Forall (fun h' => forall v, In v (COLUMN_MAPPINGS f) ->
                                    includes (toLowerCase h') v = false) l).
  { intro l. rewrite !Forall_forall. unfold headerMatches.
    split; intros H y Hy.
    - intros v Hv.
      destruct (includes (toLowerCase y) v) eqn:E; [|reflexivity].
      rewrite <- (H y Hy). symmetry. apply existsb_exists. eauto.
    - destruct (existsb _ _) eqn:E; [|reflexivity].
      apply existsb_exists in E as (v & Hv & Hi).
      rewrite (H y Hy v Hv) in Hi. discriminate. }
  split.
  - intro h. rewrite find_first_iff. unfold headerMatches at 1.
    split; intros (pre & post & E & M & P); exists pre, post;
      (split; [exact E|]); split.
    + apply existsb_exists in M. exact M.
    + now apply Hno.
    + apply existsb_exists. exact M.
    + now apply Hno.
  - rewrite find_none_iff. apply Hno.
Qed.

End Mapper.

(** C2, as amended, on the headers [name, merchant] with ASCII
    lower-casing: the merchant field goes to [name], the first header that
    contains a variant. *)
Lemma detectColumnMappings_first_matching_header_witness :
  toLowerCase_ascii [] = []
  /\ (cm_get FMerchant (detectColumnMappings toLowerCase_ascii [u "name"; u "merchant"])
      = Some (u "name") <->
      exists before after,
        [u "name"; u "merchant"] = before ++ u "name" :: after
        /\ (exists v, In v (COLUMN_MAPPINGS FMerchant)
                      /\ includes (toLowerCase_ascii (u "name")) v = true)
        /\ Forall (fun h' => forall v, In v (COLUMN_MAPPINGS FMerchant) ->
                               includes (toLowerCase_ascii h') v = false) before).
Proof.
  split; [reflexivity|].
  apply (detectColumnMappings_first_matching_header
           toLowerCase_ascii eq_refl [u "name"; u "merchant"] FMerchant).
Defined.

(** C2, counterexample: on the headers [name, merchant] the code maps the
    merchant field to [name] (first header that matches any variant), while
    variant-list priority selects [merchant] (the first variant,
    ["merchant"], occurs in the second header). *)
Lemma variant_priority_counterexample :
  let headers := [u "name"; u "merchant"] in
  cm_get FMerchant (detectColumnMappings toLowerCase_ascii headers) = Some (u "name")
  /\ variantPriorityField toLowerCase_ascii (COLUMN_MAPPINGS FMerchant) headers
     = Some (u "merchant")
  /\ cm_get FMerchant (detectColumnMappings toLowerCase_ascii headers)
     <> variantPriorityField toLowerCase_ascii (COLUMN_MAPPINGS FMerchant) headers.
Proof.
  repeat split; try reflexivity. vm_compute. discriminate.
Qed.

End ColumnMapperFacts.

(* ================================================================== *)
(** ** The row loop and the result of [parseCSV] *)
(* ================================================================== *)

Module ParserFacts.
Import CsvParser Policy.

Section Rows.

Variable toLowerCase : jsstring -> jsstring.
Variable DateCtor : jsstring -> option Date.

#[local] Abbreviation parseRow := (parseRow DateCtor).
#[local] Abbreviation rowTransactions := (rowTransactions DateCtor).
#[local] Abbreviation rowErrors := (rowErrors DateCtor).
#[local] Abbreviation parseCSV := (parseCSV toLowerCase DateCtor).

(** [lia] on lengths of lists whose element types are stated through the
    aliases [Row] and [jsstring]. *)
Ltac length_lia := unfold Row, jsstring in *; lia.

(** A row is skipped exactly when a required cell is missing or empty;
    a transaction keeps its row. *)
Lemma parseRow_cases (columnMap : ColumnMap) (row : Row) :
  if requiredCellsPresent columnMap row
  then (exists message, parseRow row columnMap = Threw message)
       \/ (exists t, parseRow row columnMap = Parsed t /\ tx_rawData t = row)
  else parseRow row columnMap = Skipped.
Proof.
  unfold requiredCellsPresent, CsvParser.parseRow.
  destruct (row_at row (cm_date columnMap)) as [d|]; simpl; [|reflexivity].
  destruct (row_at row (cm_amount columnMap)) as [a|]; simpl;
    [|now rewrite andb_false_r].
  destruct (truthy_string d); simpl; [|reflexivity].
  destruct (truthy_string a); simpl; [|reflexivity].
  destruct (parseDate DateCtor d); [|eauto].
  destruct (isNaN (parseAmount a)); eauto.
Qed.

Lemma forEach_rows_lists (columnMap : ColumnMap) (rows : list Row) :
  forall index txs errs,
    forEach_rows DateCtor columnMap rows index (txs, errs)
    = (txs ++ rowTransactions columnMap rows,
       errs ++ rowErrors columnMap rows index).
Proof.
  induction rows as [|row rest IH]; intros index txs errs; simpl.
  - now rewrite !app_nil_r.
  - destruct (parseRow row columnMap); simpl; rewrite IH;
      now rewrite <- ?app_assoc.
Qed.

Lemma rows_counted (columnMap : ColumnMap) (rows : list Row) :
  forall index,
    (List.length (rowTransactions columnMap rows)
     + List.length (rowErrors columnMap rows index)
     = List.length (filter (requiredCellsPresent columnMap) rows))%nat.
Proof.
  unfold Policy.rowTransactions.
  induction rows as [|row rest IH]; intro index; simpl; [reflexivity|].
  specialize (IH (index + 1)%Z).
  pose proof (parseRow_cases columnMap row) as C.
  rewrite !length_app.
  destruct (requiredCellsPresent columnMap row).
  - destruct C as [[m ->]|(t & -> & _)]; cbn [List.length]; length_lia.
  - rewrite C. cbn [List.length]. length_lia.
Qed.

Lemma rowTransactions_from_present (columnMap : ColumnMap) (rows : list Row) :
  Forall (fun t => In (tx_rawData t) (filter (requiredCellsPresent columnMap) rows))
         (rowTransactions columnMap rows).
Proof.
  induction rows as [|row rest IH]; simpl; [constructor|].
  pose proof (parseRow_cases columnMap row) as C.
  apply Forall_app. split.
  - destruct (requiredCellsPresent columnMap row).
    + destruct C as [[m ->]|(t & -> & <-)]; repeat constructor.
    + rewrite C. constructor.
  - eapply Forall_impl; [|exact IH]. intros t Ht. simpl.
    destruct (requiredCellsPresent columnMap row); [now right | exact Ht].
Qed.

Lemma rowTransactions_filter (columnMap : ColumnMap) (rows : list Row) :
  rowTransactions columnMap (filter (requiredCellsPresent columnMap) rows)
  = rowTransactions columnMap rows.
Proof.
  induction rows as [|row rest IH]; simpl; [reflexivity|].
  pose proof (parseRow_cases columnMap row) as C.
  destruct (requiredCellsPresent columnMap row); simpl.
  - now rewrite IH.
  - now rewrite C.
Qed.

Lemma rowErrors_filter_length (columnMap : ColumnMap) (rows : list Row) :
  forall i j,
    List.length (rowErrors columnMap (filter (requiredCellsPresent columnMap) rows) i)
    = List.length (rowErrors columnMap rows j).
Proof.
  induction rows as [|row rest IH]; intros i j; simpl; [reflexivity|].
  pose proof (parseRow_cases columnMap row) as C.
  destruct (requiredCellsPresent columnMap row); simpl.
  - rewrite !length_app.
    f_equal; [destruct (parseRow row columnMap); reflexivity | apply IH].
  - rewrite C. simpl. apply IH.
Qed.

(** [parseCSV] once both required columns are mapped. *)
Lemma parseCSV_mapped (result : PapaResult) :
  let columnMap := detectColumnMappings toLowerCase (headersOf result) in
  cm_date columnMap <> None ->
  cm_amount columnMap <> None ->
  transactions (parseCSV (PapaReturned result))
  = rowTransactions columnMap (papa_data result)
  /\ errors (parseCSV (PapaReturned result))
     = List.map papaErrorLine (papa_errors result)
       ++ rowErrors columnMap (papa_data result) 0.
Proof.
  intros columnMap Hd Ha. unfold CsvParser.parseCSV.
  fold (headersOf result). fold columnMap.
  destruct (cm_date columnMap); [|congruence].
  destruct (cm_amount columnMap); [|congruence].
  now rewrite forEach_rows_lists.
Qed.

(** C1: when the headers map both the date and the amount column, the
    errors of the result are the tokenizer's own followed by the
    row-level errors, and the number of transactions plus the number of
    row-level errors is the number of data rows whose date cell and
    amount cell are both non-empty.  A row with an empty date or amount
    cell is skipped: every transaction comes from a row with both cells,
    and taking such rows out of the file changes neither the
    transactions nor the number of errors. *)
Theorem parseCSV_counts_rows_with_required_cells
    (result : PapaResult)
    (Hdate : cm_date (detectColumnMappings toLowerCase (headersOf result)) <> None)
    (Hamount : cm_amount (detectColumnMappings toLowerCase (headersOf result)) <> None) :
  let columnMap := detectColumnMappings toLowerCase (headersOf result) in
  let out := parseCSV (PapaReturned result) in
  let present := filter (requiredCellsPresent columnMap) (papa_data result) in
  exists rowLevelErrors,
    errors out = List.map papaErrorLine (papa_errors result) ++ rowLevelErrors
    /\ (List.length (transactions out) + List.length rowLevelErrors
        = List.length present)%nat
    /\ Forall (fun t => In (tx_rawData t) present) (transactions out)
    /\ (forall row, requiredCellsPresent columnMap row = false ->
                    parseRow row columnMap = Skipped)
    /\ transactions (parseCSV (PapaReturned (withData result present)))
       = transactions out
    /\ List.length (errors (parseCSV (PapaReturned (withData result present))))
       = List.length (errors out).
Proof.
  intros columnMap out present.
  destruct (parseCSV_mapped result Hdate Hamount) as [Ht He].
  destruct (parseCSV_mapped (withData result present) Hdate Hamount) as [Ht' He'].
  fold columnMap in Ht, He, Ht', He'. fold out in Ht, He.
  exists (rowErrors columnMap (papa_data result) 0).
  split; [exact He|]. split; [rewrite Ht; apply rows_counted|].
  split; [rewrite Ht; apply rowTransactions_from_present|].
  split.
  { intros row Hrow. pose proof (parseRow_cases columnMap row) as C.
    now rewrite Hrow in C. }
  split.
  - rewrite Ht', Ht. apply rowTransactions_filter.
  - rewrite He', He, !length_app. f_equal. apply rowErrors_filter_length.
Qed.

(** C6, as amended: when the headers yield no date mapping or no amount
    mapping, the result has [success = false], no transaction, and as
    errors the tokenizer's own reports followed by exactly one
    explanatory error (so exactly one error when the tokenizer reported
    none); the data rows play no part in it. *)
Theorem parseCSV_missing_required_column
    (result : PapaResult)
    (Hmissing :
       cm_date (detectColumnMappings toLowerCase (headersOf result)) = None
       \/ cm_amount (detectColumnMappings toLowerCase (headersOf result)) = None) :
  let out := parseCSV (PapaReturned result) in
  success out = false
  /\ transactions out = []
  /\ errors out
     = List.map papaErrorLine (papa_errors result) ++ [requiredColumnsError]
  /\ List.length (errors out) = S (List.length (papa_errors result))
  /\ forall rows, parseCSV (PapaReturned (withData result rows)) = out.
Proof.
  assert (E : forall rows,
             parseCSV (PapaReturned (withData result rows))
             = {| success := false; transactions := [];
                  errors := List.map papaErrorLine (papa_errors result)
                            ++ [requiredColumnsError] |}).
  { intro rows. unfold CsvParser.parseCSV, withData.
    cbn [meta_fields papa_errors papa_data]. fold (headersOf result).
    destruct Hmissing as [-> | H]; [reflexivity|].
    rewrite H. now destruct (cm_date _). }
  assert (E0 := E (papa_data result)).
  replace (withData result (papa_data result)) with result in E0
    by now destruct result.
  intro out. subst out. rewrite E0. simpl.
  repeat split; try reflexivity.
  - rewrite length_app, length_map. simpl. lia.
  - exact E.
Qed.

End Rows.

Import HostDate Samples.

(** The sample file with two good rows, a bad date, a missing date and a
    bad amount: two transactions, two row-level errors, four rows with
    both cells. *)
Example mixedFile_result :
  let out := parseCSV toLowerCase_ascii (DateCtor 0) (PapaReturned mixedFile) in
  List.map tx_merchant (transactions out) = [u "Test1"; u "Test4"]
  /\ errors out = [ u "Row 3: Invalid date format: invalid-date";
                    u "Row 5: Invalid amount: not-a-number" ]
  /\ success out = false.
Proof. vm_compute. repeat split. Qed.

(** C1 on that file: both columns are mapped, and the count holds. *)
Lemma parseCSV_counts_rows_with_required_cells_witness :
  cm_date (detectColumnMappings toLowerCase_ascii (headersOf mixedFile)) <> None
  /\ cm_amount (detectColumnMappings toLowerCase_ascii (headersOf mixedFile)) <> None
  /\ let columnMap := detectColumnMappings toLowerCase_ascii (headersOf mixedFile) in
     let out := parseCSV toLowerCase_ascii (DateCtor 0) (PapaReturned mixedFile) in
     let present := filter (requiredCellsPresent columnMap) (papa_data mixedFile) in
     exists rowLevelErrors,
       errors out = List.map papaErrorLine (papa_errors mixedFile) ++ rowLevelErrors
       /\ (List.length (transactions out) + List.length rowLevelErrors
           = List.length present)%nat
       /\ Forall (fun t => In (tx_rawData t) present) (transactions out)
       /\ (forall row, requiredCellsPresent columnMap row = false ->
                       parseRow (DateCtor 0) row columnMap = Skipped)
       /\ transactions (parseCSV toLowerCase_ascii (DateCtor 0)
                          (PapaReturned (withData mixedFile present)))
          = transactions out
       /\ List.length (errors (parseCSV toLowerCase_ascii (DateCtor 0)
                                 (PapaReturned (withData mixedFile present))))
          = List.length (errors out).
Proof.
  split; [vm_compute; discriminate|].
  split; [vm_compute; discriminate|].
  apply (parseCSV_counts_rows_with_required_cells
           toLowerCase_ascii (DateCtor 0) mixedFile);
    vm_compute; discriminate.
Defined.

(** C6, as amended, on the file [Name,Value]: the date column is not
    mapped, the tokenizer reported nothing, and the result has the one
    explanatory error. *)
Lemma parseCSV_missing_required_column_witness :
  (cm_date (detectColumnMappings toLowerCase_ascii (headersOf nameValueFile)) = None
   \/ cm_amount (detectColumnMappings toLowerCase_ascii (headersOf nameValueFile)) = None)
  /\ let out := parseCSV toLowerCase_ascii (DateCtor 0) (PapaReturned nameValueFile) in
     success out = false
     /\ transactions out = []
     /\ errors out
        = List.map papaErrorLine (papa_errors nameValueFile) ++ [requiredColumnsError]
     /\ List.length (errors out) = S (List.length (papa_errors nameValueFile))
     /\ forall rows,
          parseCSV toLowerCase_ascii (DateCtor 0)
            (PapaReturned (withData nameValueFile rows)) = out.
Proof.
  split; [left; reflexivity|].
  apply (parseCSV_missing_required_column
           toLowerCase_ascii (DateCtor 0) nameValueFile).
  left. reflexivity.
Defined.

(** C6, counterexample: the one-line file [This is not a valid CSV] has no
    date-like header, and its result carries two errors, the tokenizer's
    report about the delimiter and then the explanatory one. *)
Lemma missing_column_single_error_counterexample :
  let out := parseCSV toLowerCase_ascii (DateCtor 0) (PapaReturned notCsvFile) in
  cm_date (detectColumnMappings toLowerCase_ascii (headersOf notCsvFile)) = None
  /\ errors out
     = [ u "Row undefined: Unable to auto-detect delimiting character; defaulted to ','";
         requiredColumnsError ]
  /\ List.length (errors out) <> 1%nat.
Proof.
  repeat split. vm_compute. discriminate.
Qed.

End ParserFacts.

(* ================================================================== *)
(** ** Amounts *)
(* ================================================================== *)

Module AmountFacts.
Import CsvParser Policy HostDate Samples.

#[local] Abbreviation kept := (fun c : N => negb (isStripped c)).

Lemma filter_kept (s : jsstring) :
  Forall (fun c => isStripped c = false) (filter kept s).
Proof.
  induction s as [|c s IH]; simpl; [constructor|].
  destruct (isStripped c) eqn:E; simpl; [exact IH|].
  constructor; assumption.
Qed.

Lemma cleanAmount_kept (s : jsstring) :
  Forall (fun c => isStripped c = false) (cleanAmount s).
Proof.
  unfold cleanAmount.
  pose proof (filter_kept s) as F.
  destruct (startsWith _ _ && endsWith _ _); [|exact F].
  constructor; [reflexivity|].
  unfold slice_1_m1.
  destruct (filter kept s) as [|c r]; [constructor|].
  inversion F as [|? ? _ Fr]; subst. simpl.
  clear F. induction r as [|d r IH]; [constructor|].
  inversion Fr; subst. destruct r as [|e r]; [constructor|].
  constructor; [assumption|]. apply IH. assumption.
Qed.

(** Nothing is left for [parseFloat] to skip in front of a cleaned amount. *)
Lemma trimStart_cleanAmount (s : jsstring) :
  trimStart (cleanAmount s) = cleanAmount s.
Proof.
  pose proof (cleanAmount_kept s) as F.
  destruct (cleanAmount s) as [|c r]; [reflexivity|].
  inversion F as [|? ? Hc _]; subst. simpl.
  unfold isStripped in Hc. apply orb_false_elim in Hc as [_ ->]. reflexivity.
Qed.

Lemma scanDecimal_not_NaN (s : jsstring) (v : number) (rest : jsstring) :
  scanDecimal s = Some (v, rest) -> isNaN v = false.
Proof.
  unfold scanDecimal.
  destruct (match s with [] => _ | _ => _ end) as [neg s1].
  destruct (startsWith s1 (u "Infinity")); [now intros [= <- _]|].
  destruct (span isDigit s1) as [ip r1].
  destruct (match r1 with [] => _ | _ => _ end) as [fp r2].
  destruct (ip ++ fp); [discriminate|].
  destruct (scanExponent r2) as [e rest'].
  intros [= <- _]. unfold decimal. now destruct (0 <=? _)%Z.
Qed.

Lemma cleanAmount_parenthesized (inner : jsstring) :
  cleanAmount (u "(" ++ inner ++ u ")") = u "-" ++ filter kept inner.
Proof.
  unfold cleanAmount.
  assert (F : filter kept (u "(" ++ inner ++ u ")")
              = 40%N :: filter kept inner ++ [41%N]).
  { rewrite !filter_app. reflexivity. }
  rewrite F.
  assert (S : startsWith (40%N :: filter kept inner ++ [41%N]) (u "(") = true)
    by reflexivity.
  assert (E : endsWith (40%N :: filter kept inner ++ [41%N]) (u ")") = true).
  { unfold endsWith. cbn [rev]. rewrite rev_app_distr. reflexivity. }
  rewrite S, E. cbn [andb]. unfold slice_1_m1. cbn [tl].
  now rewrite removelast_last.
Qed.

Lemma Fin_canon (a b : Q) : Qeq a b -> Fin (Q2Qc a) = Fin (Q2Qc b).
Proof.
  intro E. f_equal. apply Qc_is_canon. simpl.
  now rewrite !Qred_correct.
Qed.

(** C7, as amended: [parseAmount] removes every dollar, pound and euro
    sign, comma and white-space character; a cleaned string that starts with ["("] and ends
    with [")"] has the two replaced by a leading ["-"]; the rest is read
    by [parseFloat], that is, its longest leading decimal literal is the
    amount and whatever follows that literal is ignored.  The amount is
    invalid ([NaN], so that the row yields an error) exactly when the
    cleaned text has no leading decimal literal.  Where the strict policy
    (no residue allowed) accepts, the two agree.  The five sample amounts
    parse to -87.5, 87.5, -87.5, 1234.56 and -1234.56. *)
Theorem parseAmount_reads_leading_literal (amountStr : jsstring) :
  Forall (fun c => isStripped c = false) (cleanAmount amountStr)
  /\ (forall inner,
         cleanAmount (u "(" ++ inner ++ u ")")
         = u "-" ++ filter (fun c => negb (isStripped c)) inner)
  /\ parseAmount amountStr
     = match scanDecimal (cleanAmount amountStr) with
       | Some (v, _) => v
       | None => NaN
       end
  /\ (isNaN (parseAmount amountStr) = true
      <-> scanDecimal (cleanAmount amountStr) = None)
  /\ (parseAmount_policy amountStr = parseAmount amountStr
      \/ parseAmount_policy amountStr = NaN)
  /\ parseAmount (u "-$87.50") = decimal (-875) (-1)
  /\ parseAmount (u "$87.50") = decimal 875 (-1)
  /\ parseAmount (u "(87.50)") = decimal (-875) (-1)
  /\ parseAmount (u "1,234.56") = decimal 123456 (-2)
  /\ parseAmount (u "-1,234.56") = decimal (-123456) (-2).
Proof.
  assert (E : parseAmount amountStr
              = match scanDecimal (cleanAmount amountStr) with
                | Some (v, _) => v
                | None => NaN
                end).
  { unfold parseAmount, parseFloat. now rewrite trimStart_cleanAmount. }
  split; [apply cleanAmount_kept|].
  split; [apply cleanAmount_parenthesized|].
  split; [exact E|].
  split.
  { rewrite E.
    destruct (scanDecimal (cleanAmount amountStr)) as [[v rest]|] eqn:S.
    - rewrite (scanDecimal_not_NaN _ S). split; discriminate.
    - split; reflexivity. }
  split.
  { rewrite E. unfold parseAmount_policy.
    destruct (scanDecimal (cleanAmount amountStr)) as [[v [|c rest]]|]; auto. }
  repeat split; apply Fin_canon; reflexivity.
Qed.

(** C7, counterexample: ["12abc"] has the non-numeric residue ["abc"], yet
    it parses to the valid amount 12, and a row that carries it becomes a
    transaction; under the stated policy the amount is invalid. *)
Lemma trailing_residue_counterexample :
  parseAmount (u "12abc") = decimal 12 0
  /\ isNaN (parseAmount (u "12abc")) = false
  /\ parseAmount_policy (u "12abc") = NaN
  /\ (exists t,
        parseRow (DateCtor 0) (row3 "2024-01-15" "Test" "12abc")
                 (detectColumnMappings toLowerCase_ascii
                    [u "date"; u "merchant"; u "amount"])
        = Parsed t
        /\ tx_amount t = decimal 12 0).
Proof.
  split; [reflexivity|]. split; [reflexivity|]. split; [reflexivity|].
  eexists. split; reflexivity.
Qed.

End AmountFacts.

(* ================================================================== *)
(** ** Dates *)
(* ================================================================== *)

Module DateFacts.
Import CsvParser HostDate Samples.
Local Open Scope Z_scope.

Lemma jan15_utc_MakeDay : MakeDay 2024 1 15 * msPerDay = jan15_utc.
Proof. reflexivity. Qed.

Lemma DateCtor_iso (tz : Z) : DateCtor tz (u "2024-01-15") = Some jan15_utc.
Proof. reflexivity. Qed.

Lemma DateCtor_slashes (tz : Z) :
  DateCtor tz (u "01/15/2024") = Some (UTC tz jan15_utc).
Proof. reflexivity. Qed.

Lemma DateCtor_dashes (tz : Z) :
  DateCtor tz (u "01-15-2024") = Some (UTC tz jan15_utc).
Proof. reflexivity. Qed.

(** The time values of the three strings in a host [tzMinutes] east of
    UTC. *)
Lemma parseDate_time_values (tzMinutes : Z) :
  parseDate (DateCtor tzMinutes) (u "2024-01-15") = Some jan15_utc
  /\ parseDate (DateCtor tzMinutes) (u "01/15/2024")
     = Some (jan15_utc - tzMinutes * 60000)
  /\ parseDate (DateCtor tzMinutes) (u "01-15-2024")
     = Some (jan15_utc - tzMinutes * 60000).
Proof.
  unfold parseDate.
  rewrite DateCtor_iso, DateCtor_slashes, DateCtor_dashes. repeat split.
Qed.

(** Local midnight of 2024-01-15 shows the 15th in its own zone. *)
Lemma local_midnight_local_date (tzMinutes : Z) :
  localCalendarDate tzMinutes (jan15_utc - tzMinutes * 60000) = (2024, 1, 15).
Proof.
  unfold localCalendarDate, LocalTime, msPerMinute.
  replace (jan15_utc - tzMinutes * 60000 + tzMinutes * 60000)
    with jan15_utc by ring.
  reflexivity.
Qed.

(** Midnight UTC of 2024-01-15 shows the 14th west of UTC and the 15th at
    UTC and east of it. *)
Lemma utc_midnight_local_date (tzMinutes : Z) :
  if (-1440 <=? tzMinutes) && (tzMinutes <? 0)
  then localCalendarDate tzMinutes jan15_utc = (2024, 1, 14)
  else if (0 <=? tzMinutes) && (tzMinutes <? 1440)
       then localCalendarDate tzMinutes jan15_utc = (2024, 1, 15)
       else True.
Proof.
  unfold localCalendarDate, LocalTime, Day, msPerMinute, msPerDay, jan15_utc.
  destruct ((-1440 <=? tzMinutes) && (tzMinutes <? 0)) eqn:W.
  - replace ((1705276800000 + tzMinutes * 60000) / 86400000) with 19736;
      [reflexivity|].
    apply andb_prop in W. destruct W as [W1 W2].
    apply Z.leb_le in W1. apply Z.ltb_lt in W2.
    apply Z.div_unique with (r := (tzMinutes + 1440) * 60000); lia.
  - destruct ((0 <=? tzMinutes) && (tzMinutes <? 1440)) eqn:E; [|exact I].
    replace ((1705276800000 + tzMinutes * 60000) / 86400000) with 19737;
      [reflexivity|].
    apply andb_prop in E. destruct E as [E1 E2].
    apply Z.leb_le in E1. apply Z.ltb_lt in E2.
    apply Z.div_unique with (r := tzMinutes * 60000); lia.
Qed.

(** C9, at the failing input: in a host five hours west of UTC the string
    ["2024-01-15"] parses to an instant whose local calendar date, the
    one [toDateString()] shows, is 2024-01-14, while ["01/15/2024"] and
    ["01-15-2024"] parse to an instant whose local date is 2024-01-15.
    The repository's test of the three formats compares the local date of
    each parsed string with that of [new Date("2024-01-15")], and the two
    differ there for the second and the third string.  In every zone the
    first string is midnight UTC and the other two are midnight local
    time, so that the three local dates agree at UTC and east of it and
    disagree west of it; east of UTC the date of the instant in UTC, the
    one [toISOString()] shows, is 2024-01-14 for the second string. *)
Theorem iso_string_is_previous_day_west_of_utc :
  let localDate tzMinutes s :=
    option_map (localCalendarDate tzMinutes) (parseDate (DateCtor tzMinutes) s) in
  let expected tzMinutes :=
    option_map (localCalendarDate tzMinutes) (DateCtor tzMinutes (u "2024-01-15")) in
  localDate (-300) (u "2024-01-15") = Some (2024, 1, 14)
  /\ localDate (-300) (u "01/15/2024") = Some (2024, 1, 15)
  /\ localDate (-300) (u "01-15-2024") = Some (2024, 1, 15)
  /\ localDate (-300) (u "01/15/2024") <> expected (-300)
  /\ localDate (-300) (u "01-15-2024") <> expected (-300)
  /\ option_map utcCalendarDate (parseDate (DateCtor 120) (u "01/15/2024"))
     = Some (2024, 1, 14)
  /\ forall tzMinutes,
       parseDate (DateCtor tzMinutes) (u "2024-01-15") = Some jan15_utc
       /\ parseDate (DateCtor tzMinutes) (u "01/15/2024")
          = Some (jan15_utc - tzMinutes * 60000)
       /\ parseDate (DateCtor tzMinutes) (u "01-15-2024")
          = Some (jan15_utc - tzMinutes * 60000)
       /\ localDate tzMinutes (u "01/15/2024") = Some (2024, 1, 15)
       /\ localDate tzMinutes (u "01-15-2024") = Some (2024, 1, 15)
       /\ (if (-1440 <=? tzMinutes) && (tzMinutes <? 0)
           then localDate tzMinutes (u "2024-01-15") = Some (2024, 1, 14)
           else if (0 <=? tzMinutes) && (tzMinutes <? 1440)
                then localDate tzMinutes (u "2024-01-15") = Some (2024, 1, 15)
                else True).
Proof.
  cbv zeta.
  do 6 (split; [vm_compute; first [reflexivity | discriminate]|]).
  intro tzMinutes.
  destruct (parseDate_time_values tzMinutes) as (E1 & E2 & E3).
  rewrite E1, E2, E3. cbn [option_map].
  rewrite local_midnight_local_date.
  do 5 (split; [reflexivity|]).
  pose proof (utc_midnight_local_date tzMinutes) as L.
  destruct ((-1440 <=? tzMinutes) && (tzMinutes <? 0)); [now rewrite L|].
  destruct ((0 <=? tzMinutes) && (tzMinutes <? 1440)); [now rewrite L|exact I].
Qed.

End DateFacts.

(* ================================================================== *)
(** ** Categorizer *)
(* ================================================================== *)

Module CategorizerFacts.
Import Categorizer Policy Samples.

Section Categorize.

Variable toLowerCase : jsstring -> jsstring.
Variable JSON_parse : jsstring -> option jsval.
Variable StringToNumber : jsstring -> number.
Variable ObjectToNumber : jsval -> number.
Variable claude : jsstring -> Remote.
Variable openai : jsstring -> Remote.
Variable buildCategorizationPrompt : jsstring -> jsstring -> number -> jsstring.

#[local] Abbreviation categorize :=
  (categorizeTransaction toLowerCase JSON_parse StringToNumber ObjectToNumber
     claude openai buildCategorizationPrompt).
#[local] Abbreviation parseResponse :=
  (parseCategorizationResponse JSON_parse StringToNumber ObjectToNumber).

(** The rule-based result is always one of six. *)
Lemma ruleBased_outcomes (merchant description : jsstring) (amount : number) :
  let r := ruleBasedCategorization toLowerCase merchant description amount in
  In (category r, subcategory r, confidence r) ruleOutcomes.
Proof.
  unfold ruleBasedCategorization.
  repeat match goal with
         | |- context [if ?c then _ else _] => destruct c
         end;
    cbn [category subcategory confidence rule ruleOutcomes In]; tauto.
Qed.

(** Without a key no provider is consulted and no result is returned. *)
Lemma categorize_without_key (env : Env) (merchant description : jsstring)
    (amount : number) :
  truthy_opt (ANTHROPIC_API_KEY env) = false ->
  truthy_opt (OPENAI_API_KEY env) = false ->
  categorize env merchant description amount = Thrown.
Proof.
  intros H1 H2. unfold categorizeTransaction. now rewrite H1, H2.
Qed.

(** With a key, a provider whose request fails is answered by the rules. *)
Lemma categorize_provider_failed (env : Env) (merchant description : jsstring)
    (amount : number) :
  truthy_opt (ANTHROPIC_API_KEY env) = true ->
  claude (buildCategorizationPrompt merchant description amount) = RemoteThrew ->
  categorize env merchant description amount
  = Returned (ruleBasedCategorization toLowerCase merchant description amount).
Proof.
  intros K A. unfold categorizeTransaction, categorizeWithClaude.
  rewrite K. cbv beta zeta iota. rewrite K, A. reflexivity.
Qed.

(** A confidence that is a number: zero and [NaN] count as missing. *)
Lemma confidence_of_number (text json : jsstring)
    (props : list (jsstring * jsval)) (c : number) :
  jsonMatch text = Some json ->
  JSON_parse json = Some (VObj props) ->
  prop_get props (u "confidence") = VNum c ->
  confidence (parseResponse (Some text))
  = if truthy_number c
    then Math_max (num 0 0) (Math_min (num 1 0) c)
    else num 5 (-1).
Proof.
  intros M P C. unfold parseCategorizationResponse.
  rewrite M, P. cbn [properties confidence]. rewrite C.
  unfold js_or. cbn [truthy].
  destruct (truthy_number c); reflexivity.
Qed.

(** A text without a brace pair is answered by the failure object, and that
    object is what [categorizeTransaction] returns. *)
Lemma unparsable_answer (env : Env) (merchant description : jsstring)
    (amount : number) (text : jsstring) :
  truthy_opt (ANTHROPIC_API_KEY env) = true ->
  claude (buildCategorizationPrompt merchant description amount)
  = RemoteText (Some text) ->
  jsonMatch text = None ->
  categorize env merchant description amount = Returned parseFailure.
Proof.
  intros K A M. unfold categorizeTransaction, categorizeWithClaude.
  rewrite K. cbv beta zeta iota. rewrite K, A. cbn [negb].
  unfold parseCategorizationResponse. now rewrite M.
Qed.

End Categorize.

(** The brace pattern is greedy: first opening to last closing brace. *)
Example jsonMatch_samples :
  jsonMatch (u "Invalid response without JSON") = None
  /\ jsonMatch (u "see {a} and {b} here") = Some (u "{a} and {b}")
  /\ jsonMatch (u "} {") = None.
Proof. vm_compute. repeat split. Qed.

(** The inputs of the repository's tests for the rule-based path: each of
    the six outcomes is produced, in the order of [ruleOutcomes]. *)
Example rules_on_test_inputs :
  List.map
    (fun '(merchant, description, amount) =>
       let r := ruleBasedCategorization toLowerCase_ascii
                  (u merchant) (u description) amount in
       (category r, subcategory r, confidence r))
    [ ("Whole Foods", "Grocery shopping", num (-8750) (-2));
      ("Starbucks Coffee", "Coffee", num (-55) (-1));
      ("Shell", "Fuel", num (-45) 0);
      ("Netflix", "Monthly subscription", num (-1599) (-2));
      ("Employer Inc", "Payroll", num 2500 0);
      ("Unknown Merchant", "Unknown", num (-50) 0) ]%string
  = ruleOutcomes.
Proof. vm_compute. reflexivity. Qed.

(** C10, at the failing input: with no key configured the call on
    [Shell / Fuel / -45] ends in an exception and returns no result, so
    no category at all: the branch without a key is the statement of line
    55, which is not of the language.  The same holds for every
    transaction and every environment whose two keys are unset or empty.
    The sibling path, the [catch] that a failing provider leads to,
    returns the rule-based result for the same transaction: Transport
    with subcategory Gas and confidence 0.7, one of the six outcomes, and
    the rule-based function has one of these six for every transaction,
    never Housing, Shopping, Health, Entertainment, Travel or
    Transfers. *)
Theorem no_credential_returns_nothing
    (JSON_parse : jsstring -> option jsval)
    (StringToNumber : jsstring -> number) (ObjectToNumber : jsval -> number)
    (claude openai : jsstring -> Remote)
    (prompt : jsstring -> jsstring -> number -> jsstring) :
  let call provider env merchant description amount :=
    categorizeTransaction toLowerCase_ascii JSON_parse StringToNumber
      ObjectToNumber provider openai prompt env merchant description amount in
  let fallback :=
    ruleBasedCategorization toLowerCase_ascii
      (u "Shell") (u "Fuel") (num (-45) 0) in
  call claude envNone (u "Shell") (u "Fuel") (num (-45) 0) = Thrown
  /\ (forall env merchant description amount,
         if truthy_opt (ANTHROPIC_API_KEY env) || truthy_opt (OPENAI_API_KEY env)
         then True
         else call claude env merchant description amount = Thrown)
  /\ call failing envClaude (u "Shell") (u "Fuel") (num (-45) 0)
     = Returned fallback
  /\ (category fallback, subcategory fallback, confidence fallback)
     = (VStr (u "Transport"), VStr (u "Gas"), num 7 (-1))
  /\ (forall merchant description amount,
         let r := ruleBasedCategorization toLowerCase_ascii
                    merchant description amount in
         In (category r, subcategory r, confidence r) ruleOutcomes
         /\ ~ In (category r) (List.map VStr unreachableCategories)).
Proof.
  cbv zeta. split; [reflexivity|]. split.
  - intros env merchant description amount.
    destruct (truthy_opt (ANTHROPIC_API_KEY env)) eqn:A; [exact I|].
    destruct (truthy_opt (OPENAI_API_KEY env)) eqn:O; [exact I|].
    cbn [orb]. now apply categorize_without_key.
  - split; [|split].
    + now apply categorize_provider_failed.
    + vm_compute. reflexivity.
    + intros merchant description amount.
      pose proof (ruleBased_outcomes toLowerCase_ascii JSON_parse
                    StringToNumber claude openai prompt
                    merchant description amount) as O.
      cbv zeta in O. split; [exact O|].
      destruct (ruleBasedCategorization toLowerCase_ascii
                  merchant description amount) as [c s k e].
      cbn [category subcategory confidence ruleOutcomes In] in *.
      repeat (destruct O as [O|O];
              [injection O as <- <- <-; vm_compute; intuition discriminate|]).
      contradiction.
Qed.

(** C3, at the failing input: with a key configured and a provider that
    answers [Invalid response without JSON], the transaction
    [Whole Foods / Grocery / -50] is returned as Uncategorized with
    confidence 0; the rule-based result for it, which is what the same
    call returns when the provider throws, is Groceries with 0.7. *)
Theorem unparsable_response_not_rule_based
    (JSON_parse : jsstring -> option jsval)
    (StringToNumber : jsstring -> number) (ObjectToNumber : jsval -> number)
    (openai : jsstring -> Remote)
    (prompt : jsstring -> jsstring -> number -> jsstring) :
  let categorizeWith provider :=
    categorizeTransaction toLowerCase_ascii JSON_parse StringToNumber
      ObjectToNumber provider openai prompt envClaude
      (u "Whole Foods") (u "Grocery") (num (-50) 0) in
  let fallback :=
    ruleBasedCategorization toLowerCase_ascii
      (u "Whole Foods") (u "Grocery") (num (-50) 0) in
  categorizeWith (answering "Invalid response without JSON")
  = Returned parseFailure
  /\ category parseFailure = VStr (u "Uncategorized")
  /\ confidence parseFailure = num 0 0
  /\ categorizeWith failing = Returned fallback
  /\ category fallback = VStr (u "Groceries")
  /\ confidence fallback = num 7 (-1)
  /\ categorizeWith (answering "Invalid response without JSON")
     <> Returned fallback.
Proof.
  repeat split. vm_compute. discriminate.
Qed.

(** C8, at the failing input: the well-formed answer
    [{"category":"Groceries","confidence":0,"explanation":"Test"}] carries
    the valid confidence 0, and the result has confidence 0.5; a numeric
    confidence is clamped only when it is truthy, so that 1.5, 0.92 and
    -0.3 come out as 1, 0.92 and 0.  A confidence that is a string goes
    through the clamp as whatever number the string converts to, and the
    clamp of [NaN] is [NaN], not 0.5. *)
Theorem zero_confidence_becomes_half
    (StringToNumber : jsstring -> number) (ObjectToNumber : jsval -> number) :
  jsonMatch zeroConfidenceText = Some zeroConfidenceText
  /\ confidence
       (parseCategorizationResponse JSON_parse_zero StringToNumber
          ObjectToNumber (Some zeroConfidenceText))
     = num 5 (-1)
  /\ (forall c : number,
         let answer := VObj [ (u "confidence", VNum c) ] in
         confidence
           (parseCategorizationResponse (fun _ => Some answer) StringToNumber
              ObjectToNumber (Some (u "{}")))
         = if truthy_number c
           then Math_max (num 0 0) (Math_min (num 1 0) c)
           else num 5 (-1))
  /\ Math_max (num 0 0) (Math_min (num 1 0) (num 15 (-1))) = num 1 0
  /\ Math_max (num 0 0) (Math_min (num 1 0) (num 92 (-2))) = num 92 (-2)
  /\ Math_max (num 0 0) (Math_min (num 1 0) (num (-3) (-1))) = num 0 0
  /\ confidence
       (parseCategorizationResponse
          (fun _ => Some (VObj [ (u "confidence", VStr (u "high")) ]))
          StringToNumber ObjectToNumber (Some (u "{}")))
     = Math_max (num 0 0) (Math_min (num 1 0) (StringToNumber (u "high")))
  /\ Math_max (num 0 0) (Math_min (num 1 0) NaN) = NaN.
Proof.
  split; [reflexivity|]. split; [reflexivity|].
  split.
  - intros c answer.
    apply (@confidence_of_number (fun _ => Some answer) StringToNumber
             ObjectToNumber (u "{}") (u "{}") [ (u "confidence", VNum c) ] c);
      reflexivity.
  - repeat split.
Qed.

End CategorizerFacts.

(* ================================================================== *)
(** ** Deduplication hash *)
(* ================================================================== *)

Module HashFacts.
Import DedupHash Samples.

(** Every byte is rendered as two lower-case hexadecimal digits that read
    back as the byte. *)
Lemma hex_of_byte (b : byte) :
  exists h l,
    padStart 2 48 (toString16 (Byte.to_N b)) = [h; l]
    /\ isLowerHex h = true /\ isLowerHex l = true
    /\ (16 * hexValue h + hexValue l)%N = Byte.to_N b.
Proof.
  destruct b; vm_compute; do 2 eexists; repeat split.
Qed.

Lemma hexOfBytes_cons (b : byte) (rest : list byte) :
  hexOfBytes (b :: rest)
  = padStart 2 48 (toString16 (Byte.to_N b)) ++ hexOfBytes rest.
Proof. reflexivity. Qed.

Lemma hexOfBytes_length (bytes : list byte) :
  List.length (hexOfBytes bytes) = (2 * List.length bytes)%nat.
Proof.
  induction bytes as [|b rest IH]; [reflexivity|].
  rewrite hexOfBytes_cons.
  destruct (hex_of_byte b) as (h & l & -> & _).
  cbn [app List.length]. rewrite IH. lia.
Qed.

Lemma hexOfBytes_lower_hex (bytes : list byte) :
  Forall (fun c => isLowerHex c = true) (hexOfBytes bytes).
Proof.
  induction bytes as [|b rest IH]; [constructor|].
  rewrite hexOfBytes_cons.
  destruct (hex_of_byte b) as (h & l & -> & Hh & Hl & _).
  cbn [app]. repeat constructor; assumption.
Qed.

Lemma bytesOfHex_hexOfBytes (bytes : list byte) :
  bytesOfHex (hexOfBytes bytes) = List.map Byte.to_N bytes.
Proof.
  induction bytes as [|b rest IH]; [reflexivity|].
  rewrite hexOfBytes_cons.
  destruct (hex_of_byte b) as (h & l & -> & _ & _ & V).
  cbn [app bytesOfHex List.map]. now rewrite IH, V.
Qed.

(** Splitting at the first hyphen, and at a known length. *)
Lemma split_at_hyphen (a1 a2 r1 r2 : jsstring) :
  ~ In hyphen a1 -> ~ In hyphen a2 ->
  a1 ++ hyphen :: r1 = a2 ++ hyphen :: r2 ->
  a1 = a2 /\ r1 = r2.
Proof.
  revert a2. induction a1 as [|c a1 IH]; intros [|d a2] N1 N2 E; simpl in *.
  - injection E as ->. auto.
  - injection E as <- _. tauto.
  - injection E as -> _. tauto.
  - injection E as -> E.
    destruct (IH a2) as [-> ->]; tauto.
Qed.

Lemma split_at_length (a1 a2 r1 r2 : jsstring) :
  List.length a1 = List.length a2 ->
  a1 ++ r1 = a2 ++ r2 ->
  a1 = a2 /\ r1 = r2.
Proof.
  revert a2. induction a1 as [|c a1 IH]; intros [|d a2] L E; simpl in *;
    try discriminate.
  - auto.
  - injection L as L. injection E as -> E.
    destruct (IH a2 L E) as [-> ->]. auto.
Qed.

Section Hashing.

Variable Number_toString : number -> jsstring.
Variable TextEncoder_encode : jsstring -> list byte.
Variable digest_SHA256 : list byte -> list byte.

(** The digest is 256 bits long. *)
Hypothesis digest_length :
  forall buffer, List.length (digest_SHA256 buffer) = 32%nat.

#[local] Abbreviation hashInput := (hashInput Number_toString).
#[local] Abbreviation generateHash :=
  (generateHash Number_toString TextEncoder_encode digest_SHA256).

(** C5: equal tuples give equal strings, and the string is the lower-case
    hexadecimal rendering of the 32-byte digest of the encoded input: 64
    characters, each in [0-9a-f], that read back as the digest. *)
Theorem generateHash_deterministic_hex
    (date1 date2 : jsstring) (amount1 amount2 : number)
    (merchant1 merchant2 description1 description2 : jsstring)
    (Hequal : (date1, amount1, merchant1, description1)
              = (date2, amount2, merchant2, description2)) :
  generateHash date1 amount1 merchant1 description1
  = generateHash date2 amount2 merchant2 description2
  /\ List.length (generateHash date1 amount1 merchant1 description1) = 64%nat
  /\ Forall (fun c => isLowerHex c = true)
            (generateHash date1 amount1 merchant1 description1)
  /\ bytesOfHex (generateHash date1 amount1 merchant1 description1)
     = List.map Byte.to_N
         (digest_SHA256
            (TextEncoder_encode
               (hashInput date1 amount1 merchant1 description1))).
Proof.
  injection Hequal as -> -> -> ->.
  unfold DedupHash.generateHash.
  split; [reflexivity|].
  split; [now rewrite hexOfBytes_length, digest_length|].
  split; [apply hexOfBytes_lower_hex | apply bytesOfHex_hexOfBytes].
Qed.

(** C4, as amended: the input of the digest is the four rendered fields
    joined by single hyphens.  Two tuples with the same input have the same
    date, amount text, merchant and description when none of date, amount
    text and merchant of either tuple contains a hyphen, and also when the
    dates, the amount texts and the merchants of the two tuples have
    pairwise the same length.  (Without such a condition distinct tuples
    can share one input.) *)
Theorem hashInput_injective_when_delimited
    (date1 date2 : jsstring) (amount1 amount2 : number)
    (merchant1 merchant2 description1 description2 : jsstring)
    (Hfields :
       (Forall (fun field => ~ In hyphen field)
               [date1; Number_toString amount1; merchant1;
                date2; Number_toString amount2; merchant2])
       \/ (List.length date1 = List.length date2
           /\ List.length (Number_toString amount1)
              = List.length (Number_toString amount2)
           /\ List.length merchant1 = List.length merchant2))
    (Hinput : hashInput date1 amount1 merchant1 description1
              = hashInput date2 amount2 merchant2 description2) :
  date1 = date2
  /\ Number_toString amount1 = Number_toString amount2
  /\ merchant1 = merchant2
  /\ description1 = description2.
Proof.
  unfold DedupHash.hashInput in Hinput.
  change (u "-") with [hyphen] in Hinput. cbn [app] in Hinput.
  destruct Hfields as [F | (Ld & La & Lm)].
  - repeat match goal with
           | H : Forall _ (_ :: _) |- _ => inversion H; clear H; subst
           end.
    apply split_at_hyphen in Hinput as [-> Hinput]; try assumption.
    apply split_at_hyphen in Hinput as [-> Hinput]; try assumption.
    apply split_at_hyphen in Hinput as [-> Hinput]; try assumption.
    auto.
  - apply split_at_length in Hinput as [-> Hinput]; [|assumption].
    injection Hinput as Hinput.
    apply split_at_length in Hinput as [-> Hinput]; [|assumption].
    injection Hinput as Hinput.
    apply split_at_length in Hinput as [-> Hinput]; [|assumption].
    injection Hinput as ->. auto.
Qed.

End Hashing.

(** The model digest has 32 bytes. *)
Lemma SHA256_length (message : list byte) :
  List.length (Host.SHA256 message) = 32%nat.
Proof.
  unfold Host.SHA256.
  destruct (fold_left Host.compress _ Host.initial)
    as [[[[[[[a b] c] d] e] f] g] h].
  reflexivity.
Qed.

(** The hash of a sample transaction, as the host computes it. *)
Example generateHash_sample :
  generateHash Host.Number_toString Host.TextEncoder_encode Host.SHA256
    (u "2024-01-15") (decimal (-8750) (-2)) (u "Whole Foods")
    (u "Grocery shopping")
  = u "a8fd765d3cd4caa142aa998e06cd3eb7892c1bab760f770e7760d1e292bd179a".
Proof. vm_compute. reflexivity. Qed.

(** C5 with UTF-8 and SHA-256 as the hosts, on the sample transaction. *)
Lemma generateHash_deterministic_hex_witness :
  (forall buffer, List.length (Host.SHA256 buffer) = 32%nat)
  /\ (u "2024-01-15", decimal (-8750) (-2), u "Whole Foods", u "Grocery shopping")
     = (u "2024-01-15", decimal (-8750) (-2), u "Whole Foods", u "Grocery shopping")
  /\ let h :=
       generateHash Host.Number_toString Host.TextEncoder_encode Host.SHA256
         (u "2024-01-15") (decimal (-8750) (-2)) (u "Whole Foods")
         (u "Grocery shopping") in
     h = h
     /\ List.length h = 64%nat
     /\ Forall (fun c => isLowerHex c = true) h
     /\ bytesOfHex h
        = List.map Byte.to_N
            (Host.SHA256
               (Host.TextEncoder_encode
                  (hashInput Host.Number_toString (u "2024-01-15")
                     (decimal (-8750) (-2)) (u "Whole Foods")
                     (u "Grocery shopping")))).
Proof.
  split; [exact SHA256_length|]. split; [reflexivity|].
  exact (@generateHash_deterministic_hex
           Host.Number_toString Host.TextEncoder_encode Host.SHA256
           SHA256_length
           (u "2024-01-15") (u "2024-01-15")
           (decimal (-8750) (-2)) (decimal (-8750) (-2))
           (u "Whole Foods") (u "Whole Foods")
           (u "Grocery shopping") (u "Grocery shopping") eq_refl).
Defined.

(** C4, as amended, on a tuple whose date, amount text and merchant have
    no hyphen; the description has one. *)
Lemma hashInput_injective_when_delimited_witness :
  (Forall (fun field => ~ In hyphen field)
          [u "20240115"; Host.Number_toString (decimal 45 0); u "Shell";
           u "20240115"; Host.Number_toString (decimal 45 0); u "Shell"]
   \/ (List.length (u "20240115") = List.length (u "20240115")
       /\ List.length (Host.Number_toString (decimal 45 0))
          = List.length (Host.Number_toString (decimal 45 0))
       /\ List.length (u "Shell") = List.length (u "Shell")))
  /\ hashInput Host.Number_toString (u "20240115") (decimal 45 0) (u "Shell") (u "Fuel-up")
     = hashInput Host.Number_toString (u "20240115") (decimal 45 0) (u "Shell") (u "Fuel-up")
  /\ (u "20240115" = u "20240115"
      /\ Host.Number_toString (decimal 45 0) = Host.Number_toString (decimal 45 0)
      /\ u "Shell" = u "Shell"
      /\ u "Fuel-up" = u "Fuel-up").
Proof.
  assert (H : List.length (u "20240115") = List.length (u "20240115")
              /\ List.length (Host.Number_toString (decimal 45 0))
                 = List.length (Host.Number_toString (decimal 45 0))
              /\ List.length (u "Shell") = List.length (u "Shell"))
    by (repeat split; reflexivity).
  split; [right; exact H|]. split; [reflexivity|].
  exact (@hashInput_injective_when_delimited
           Host.Number_toString
           (u "20240115") (u "20240115") (decimal 45 0) (decimal 45 0)
           (u "Shell") (u "Shell") (u "Fuel-up") (u "Fuel-up")
           (or_intror H) eq_refl).
Defined.

(** C4, counterexample: the transactions with merchant [Wal-Mart],
    description [Store] and with merchant [Wal], description [Mart-Store],
    on the same date and for the same amount, are different tuples with
    one and the same digest input, hence one and the same hash. *)
Lemma hashInput_collision_counterexample :
  let date := u "2024-01-15" in
  let amount := decimal (-8750) (-2) in
  (date, amount, u "Wal-Mart", u "Store") <> (date, amount, u "Wal", u "Mart-Store")
  /\ hashInput Host.Number_toString date amount (u "Wal-Mart") (u "Store")
     = u "2024-01-15--87.5-Wal-Mart-Store"
  /\ hashInput Host.Number_toString date amount (u "Wal") (u "Mart-Store")
     = u "2024-01-15--87.5-Wal-Mart-Store"
  /\ generateHash Host.Number_toString Host.TextEncoder_encode Host.SHA256
       date amount (u "Wal-Mart") (u "Store")
     = generateHash Host.Number_toString Host.TextEncoder_encode Host.SHA256
         date amount (u "Wal") (u "Mart-Store").
Proof.
  repeat split. intro H. injection H as H _. vm_compute in H. discriminate.
Qed.

End HashFacts.

(* ================================================================== *)
(** ** Substrings *)
(* ================================================================== *)

Module StringFacts.

Lemma startsWith_iff (p s : jsstring) :
  startsWith s p = true <-> exists rest, s = p ++ rest.
Proof.
  revert s. induction p as [|c p IH]; intro s; simpl.
  - split; eauto.
  - destruct s as [|d s].
    + split; [discriminate | intros [r E]; discriminate].
    + rewrite andb_true_iff, N.eqb_eq, IH. split.
      * intros [-> [r ->]]. eauto.
      * intros [r E]. injection E as -> ->. eauto.
Qed.

Lemma includes_iff (s p : jsstring) :
  includes s p = true <-> exists before after, s = before ++ p ++ after.
Proof.
  induction s as [|d s IH]; simpl.
  - rewrite orb_false_r, startsWith_iff. split.
    + intros [r E]. exists [], r. exact E.
    + intros (a & b & E). destruct a; [|discriminate].
      simpl in E. eauto.
  - rewrite orb_true_iff, startsWith_iff, IH. split.
    + intros [[r E] | (a & b & ->)].
      * exists [], r. exact E.
      * exists (d :: a), b. reflexivity.
    + intros (a & b & E). destruct a as [|e a]; simpl in E.
      * left. eauto.
      * right. injection E as -> ->. eauto.
Qed.

Lemma includes_trans (s v p : jsstring) :
  includes s v = true -> includes v p = true -> includes s p = true.
Proof.
  rewrite !includes_iff. intros (a & b & ->) (a' & b' & ->).
  exists (a ++ a'), (b' ++ b). now rewrite <- !app_assoc.
Qed.

Lemma includes_middle (before p after : jsstring) :
  includes (before ++ p ++ after) p = true.
Proof. apply includes_iff. eauto. Qed.

Lemma find_map {A B : Type} (g : A -> B) (q : B -> bool) (l : list A) :
  find q (List.map g l) = option_map g (find (fun x => q (g x)) l).
Proof.
  induction l as [|a l IH]; simpl; [reflexivity|].
  destruct (q (g a)); [reflexivity | exact IH].
Qed.

Lemma find_ext_Forall {A : Type} (q1 q2 : A -> bool) (l : list A) :
  Forall (fun x => q1 x = q2 x) l -> find q1 l = find q2 l.
Proof.
  induction 1 as [|a l E _ IH]; simpl; [reflexivity|].
  rewrite E, IH. reflexivity.
Qed.

Lemma toLowerCase_ascii_idempotent (s : jsstring) :
  toLowerCase_ascii (toLowerCase_ascii s) = toLowerCase_ascii s.
Proof.
  unfold toLowerCase_ascii. rewrite map_map. apply map_ext. intro c.
  destruct ((65 <=? c) && (c <=? 90))%N eqn:E; [|now rewrite E].
  apply andb_true_iff in E as [E1 E2].
  apply N.leb_le in E1, E2.
  replace (c + 32 <=? 90)%N with false; [now rewrite andb_false_r|].
  symmetry. apply N.leb_gt. lia.
Qed.

End StringFacts.

(* ================================================================== *)
(** ** More on column mapping *)
(* ================================================================== *)

Module MapperFacts.
Import CsvParser Policy Notions StringFacts.

Section Mapping.

Variable toLowerCase : jsstring -> jsstring.

#[local] Abbreviation lower_has := (fun h v => includes (toLowerCase h) v).

Lemma detectField_ext (vs1 vs2 : list jsstring) (headers : list jsstring) :
  Forall (fun h => headerMatches toLowerCase vs1 h
                   = headerMatches toLowerCase vs2 h) headers ->
  detectField toLowerCase vs1 headers = detectField toLowerCase vs2 headers.
Proof.
  intro H. unfold detectField. now rewrite (find_ext_Forall _ _ H).
Qed.

(** A longer variant that contains a shorter one adds nothing. *)
Lemma date_variants_collapse (h : jsstring) :
  headerMatches toLowerCase (COLUMN_MAPPINGS FDate) h
  = headerMatches toLowerCase [u "date"] h.
Proof.
  unfold headerMatches. cbn [COLUMN_MAPPINGS existsb].
  destruct (includes (toLowerCase h) (u "date")) eqn:D; [reflexivity|].
  cbn [orb].
  repeat match goal with
         | |- context [includes (toLowerCase h) ?v] =>
             let E := fresh "E" in
             destruct (includes (toLowerCase h) v) eqn:E;
             [ rewrite (includes_trans (toLowerCase h) v (u "date") E eq_refl) in D;
               discriminate | ]
         end.
  reflexivity.
Qed.

Lemma amount_variants_collapse (h : jsstring) :
  headerMatches toLowerCase (COLUMN_MAPPINGS FAmount) h
  = headerMatches toLowerCase [u "amount"; u "value"; u "debit"; u "credit"] h.
Proof.
  unfold headerMatches. cbn [COLUMN_MAPPINGS existsb].
  destruct (includes (toLowerCase h) (u "amount")) eqn:A; [reflexivity|].
  cbn [orb].
  destruct (includes (toLowerCase h) (u "value")); [reflexivity|].
  cbn [orb].
  destruct (includes (toLowerCase h) (u "transaction amount")) eqn:T;
    [|reflexivity].
  rewrite (includes_trans (toLowerCase h) (u "transaction amount") (u "amount")
             T eq_refl) in A.
  discriminate.
Qed.

(** X7: the date column is the first header whose lower-cased text contains
    ["date"] anywhere (so [update] or [candidate] qualify), and the four
    longer date variants never decide anything; likewise the amount
    variant ["transaction amount"] never decides anything. *)
Theorem longer_variants_are_redundant (headers : list jsstring) :
  cm_date (detectColumnMappings toLowerCase headers)
  = detectField toLowerCase [u "date"] headers
  /\ cm_amount (detectColumnMappings toLowerCase headers)
     = detectField toLowerCase
         [u "amount"; u "value"; u "debit"; u "credit"] headers.
Proof.
  split; cbn [detectColumnMappings cm_date cm_amount];
    apply detectField_ext, Forall_forall; intros h _.
  - apply date_variants_collapse.
  - apply amount_variants_collapse.
Qed.

(** X8: when no header contains one of merchant, payee, name, vendor, memo,
    details, notes, the merchant field and the description field are
    mapped alike: both to the first header that contains ["description"],
    or both left unmapped. *)
Theorem description_header_serves_both
    (headers : list jsstring)
    (Hothers : Forall (fun h => Forall (fun v => lower_has h v = false)
                                  otherTextVariants) headers) :
  cm_merchant (detectColumnMappings toLowerCase headers)
  = cm_description (detectColumnMappings toLowerCase headers)
  /\ cm_description (detectColumnMappings toLowerCase headers)
     = detectField toLowerCase [u "description"] headers.
Proof.
  assert (M : detectField toLowerCase (COLUMN_MAPPINGS FMerchant) headers
              = detectField toLowerCase [u "description"] headers).
  { apply detectField_ext. eapply Forall_impl; [|exact Hothers].
    intros h Hh. unfold otherTextVariants in Hh.
    repeat match goal with
           | H : Forall _ (_ :: _) |- _ => inversion H; clear H; subst
           end.
    unfold headerMatches. cbn [COLUMN_MAPPINGS existsb].
    repeat match goal with
           | H : includes _ _ = false |- _ => rewrite H; clear H
           end.
    reflexivity. }
  assert (D : detectField toLowerCase (COLUMN_MAPPINGS FDescription) headers
              = detectField toLowerCase [u "description"] headers).
  { apply detectField_ext. eapply Forall_impl; [|exact Hothers].
    intros h Hh. unfold otherTextVariants in Hh.
    repeat match goal with
           | H : Forall _ (_ :: _) |- _ => inversion H; clear H; subst
           end.
    unfold headerMatches. cbn [COLUMN_MAPPINGS existsb].
    repeat match goal with
           | H : includes _ _ = false |- _ => rewrite H; clear H
           end.
    reflexivity. }
  cbn [detectColumnMappings cm_merchant cm_description].
  rewrite M, D. split; reflexivity.
Qed.

Hypothesis toLowerCase_empty : toLowerCase [] = [].
Hypothesis toLowerCase_idempotent :
  forall s, toLowerCase (toLowerCase s) = toLowerCase s.

(** X9: mapping is insensitive to the case of the headers: on the
    lower-cased headers every field selects the lower-cased form of the
    header it selects on the original ones. *)
Theorem mapping_is_case_insensitive (headers : list jsstring) (f : Field) :
  cm_get f (detectColumnMappings toLowerCase (List.map toLowerCase headers))
  = option_map toLowerCase
      (cm_get f (detectColumnMappings toLowerCase headers)).
Proof.
  rewrite !(ColumnMapperFacts.cm_get_detect toLowerCase).
  rewrite !(ColumnMapperFacts.detectField_find toLowerCase toLowerCase_empty).
  rewrite find_map. f_equal.
  apply find_ext_Forall, Forall_forall. intros h _.
  unfold headerMatches. now rewrite toLowerCase_idempotent.
Qed.

End Mapping.

(** X8 on the headers [date, description, amount]. *)
Lemma description_header_serves_both_witness :
  Forall (fun h => Forall (fun v => includes (toLowerCase_ascii h) v = false)
                     otherTextVariants)
         [u "date"; u "description"; u "amount"]
  /\ cm_merchant (detectColumnMappings toLowerCase_ascii
                    [u "date"; u "description"; u "amount"])
     = cm_description (detectColumnMappings toLowerCase_ascii
                         [u "date"; u "description"; u "amount"])
  /\ cm_description (detectColumnMappings toLowerCase_ascii
                       [u "date"; u "description"; u "amount"])
     = detectField toLowerCase_ascii [u "description"]
         [u "date"; u "description"; u "amount"].
Proof.
  assert (H : Forall (fun h => Forall (fun v => includes (toLowerCase_ascii h) v = false)
                                 otherTextVariants)
                     [u "date"; u "description"; u "amount"])
    by (repeat constructor).
  split; [exact H|].
  exact (description_header_serves_both toLowerCase_ascii H).
Defined.

(** X9 with ASCII lower-casing on the headers [DATE, MERCHANT, AMOUNT]. *)
Lemma mapping_is_case_insensitive_witness :
  toLowerCase_ascii [] = []
  /\ (forall s, toLowerCase_ascii (toLowerCase_ascii s) = toLowerCase_ascii s)
  /\ cm_get FMerchant
       (detectColumnMappings toLowerCase_ascii
          (List.map toLowerCase_ascii [u "DATE"; u "MERCHANT"; u "AMOUNT"]))
     = option_map toLowerCase_ascii
         (cm_get FMerchant
            (detectColumnMappings toLowerCase_ascii
               [u "DATE"; u "MERCHANT"; u "AMOUNT"])).
Proof.
  split; [reflexivity|]. split; [exact toLowerCase_ascii_idempotent|].
  exact (mapping_is_case_insensitive toLowerCase_ascii eq_refl
           toLowerCase_ascii_idempotent
           [u "DATE"; u "MERCHANT"; u "AMOUNT"] FMerchant).
Defined.

End MapperFacts.

(* ================================================================== *)
(** ** More on rows and results *)
(* ================================================================== *)

Module RowFacts.
Import CsvParser Policy Notions Samples HostDate.

Section Results.

Variable toLowerCase : jsstring -> jsstring.
Variable DateCtor : jsstring -> option Date.

#[local] Abbreviation parseRow := (parseRow DateCtor).
#[local] Abbreviation rowTransactions := (rowTransactions DateCtor).
#[local] Abbreviation rowErrors := (rowErrors DateCtor).
#[local] Abbreviation parseCSV := (parseCSV toLowerCase DateCtor).
#[local] Abbreviation columnsOf result :=
  (detectColumnMappings toLowerCase (headersOf result)).

(** X1: [success] is [true] exactly when the result has no error, and
    then the tokenizer returned without any report and every data row
    with both required cells became a transaction; in every other case
    there is at least one error. *)
Theorem parseCSV_success_iff_no_errors (papa : PapaOutcome) :
  let out := parseCSV papa in
  if success out
  then errors out = []
       /\ exists result,
            papa = PapaReturned result
            /\ papa_errors result = []
            /\ List.length (transactions out)
               = List.length (filter (requiredCellsPresent (columnsOf result))
                                     (papa_data result))
  else errors out <> [].
Proof.
  destruct papa as [message | result]; cbn zeta.
  - cbn. discriminate.
  - destruct (cm_date (columnsOf result)) as [d|] eqn:Hd;
      [destruct (cm_amount (columnsOf result)) as [a|] eqn:Ha|].
    + destruct (ParserFacts.parseCSV_mapped toLowerCase DateCtor result)
        as [Ht He]; [congruence | congruence |].
      assert (Hs : success (parseCSV (PapaReturned result))
                   = Nat.eqb (List.length (errors (parseCSV (PapaReturned result)))) 0).
      { unfold CsvParser.parseCSV. fold (headersOf result).
        rewrite Hd, Ha.
        now destruct (forEach_rows _ _ _ _ _). }
      rewrite Hs.
      destruct (errors (parseCSV (PapaReturned result))) as [|e es] eqn:E;
        cbn [List.length Nat.eqb]; [|discriminate].
      split; [reflexivity|]. exists result. split; [reflexivity|].
      symmetry in He. apply app_eq_nil in He as [Hp Hr].
      apply map_eq_nil in Hp. split; [exact Hp|].
      rewrite Ht.
      pose proof (ParserFacts.rows_counted DateCtor (columnsOf result)
                    (papa_data result) 0) as C.
      rewrite Hr in C. cbn [List.length] in C. rewrite <- C. lia.
    + unfold CsvParser.parseCSV. fold (headersOf result).
      rewrite Hd, Ha. cbn. intro H. now apply app_eq_nil in H as [_ H].
    + unfold CsvParser.parseCSV. fold (headersOf result).
      rewrite Hd. cbn. intro H. now apply app_eq_nil in H as [_ H].
Qed.

Lemma rowErrors_labels (columnMap : ColumnMap) (rows : list Row) :
  forall (index : Z) (i : nat) (row : Row) (message : jsstring),
    nth_error rows i = Some row ->
    parseRow row columnMap = Threw message ->
    In (u "Row " ++ Z_toString (index + Z.of_nat i + 2) ++ u ": " ++ message)
       (rowErrors columnMap rows index).
Proof.
  induction rows as [|r rest IH]; intros index i row message Hn Ht.
  - destruct i; discriminate.
  - cbn [Policy.rowErrors]. apply in_or_app.
    destruct i as [|i]; cbn [nth_error] in Hn.
    + injection Hn as ->. left. rewrite Ht.
      replace (index + Z.of_nat 0 + 2)%Z with (index + 2)%Z by lia.
      now left.
    + right.
      replace (index + Z.of_nat (S i) + 2)%Z
        with (index + 1 + Z.of_nat i + 2)%Z by lia.
      now apply IH with (row := row).
Qed.

(** X2: when both required columns are mapped, a data row at position [i]
    (counted from 0) whose date or amount does not parse is reported in
    the errors as [Row i+2], and the message names the offending cell:
    [Invalid date format:] with the date cell, or [Invalid amount:] with
    the amount cell. *)
Theorem row_errors_are_labelled
    (result : PapaResult) (i : nat) (row : Row) (message : jsstring)
    (Hdate : cm_date (columnsOf result) <> None)
    (Hamount : cm_amount (columnsOf result) <> None)
    (Hrow : nth_error (papa_data result) i = Some row)
    (Hthrew : parseRow row (columnsOf result) = Threw message) :
  In (rowLabel i message) (errors (parseCSV (PapaReturned result)))
  /\ ((exists cell, row_at row (cm_date (columnsOf result)) = Some cell
                    /\ message = u "Invalid date format: " ++ cell)
      \/ (exists cell, row_at row (cm_amount (columnsOf result)) = Some cell
                       /\ message = u "Invalid amount: " ++ cell)).
Proof.
  destruct (ParserFacts.parseCSV_mapped toLowerCase DateCtor result Hdate Hamount)
    as [_ He].
  split.
  - rewrite He. apply in_or_app. right.
    apply (rowErrors_labels _ _ 0 _ Hrow Hthrew).
  - revert Hthrew. unfold CsvParser.parseRow.
    destruct (row_at row (cm_date (columnsOf result))) as [d|]; [|discriminate].
    destruct (row_at row (cm_amount (columnsOf result))) as [a|]; [|discriminate].
    destruct (negb (truthy_string d) || negb (truthy_string a)); [discriminate|].
    destruct (parseDate DateCtor d).
    + destruct (isNaN (parseAmount a)); [|discriminate].
      intros [= <-]. right. eauto.
    + intros [= <-]. left. eauto.
Qed.

(** X3: in a transaction, a description cell that is absent or empty is
    replaced by the merchant, so that description and merchant coincide,
    the merchant being the trimmed merchant cell or, when that cell is
    absent or empty, ["Unknown"]. *)
Theorem description_defaults_to_merchant
    (row : Row) (columnMap : ColumnMap) (t : ParsedTransaction)
    (Hparsed : parseRow row columnMap = Parsed t)
    (Hnone : truthy_opt (row_at row (cm_description columnMap)) = false) :
  tx_description t = tx_merchant t
  /\ tx_merchant t
     = trim (or_else (row_at row (cm_merchant columnMap)) (u "Unknown"))
  /\ trim (or_else None (u "Unknown")) = u "Unknown"
  /\ trim (or_else (Some []) (u "Unknown")) = u "Unknown".
Proof.
  revert Hparsed. unfold CsvParser.parseRow.
  destruct (row_at row (cm_date columnMap)) as [d|]; [|discriminate].
  destruct (row_at row (cm_amount columnMap)) as [a|]; [|discriminate].
  destruct (negb (truthy_string d) || negb (truthy_string a)); [discriminate|].
  destruct (parseDate DateCtor d); [|discriminate].
  destruct (isNaN (parseAmount a)); [discriminate|].
  intros [= <-]. cbn [tx_description tx_merchant].
  assert (E : forall m, or_else (row_at row (cm_description columnMap)) m = m).
  { intro m. unfold or_else.
    destruct (row_at row (cm_description columnMap)) as [s|]; [|reflexivity].
    cbn [truthy_opt] in Hnone. now rewrite Hnone. }
  rewrite E. repeat split.
Qed.

Lemma trimStart_spec (s : jsstring) :
  exists a,
    s = a ++ trimStart s
    /\ Forall (fun c => isWhiteSpace c = true) a
    /\ (forall c rest, trimStart s = c :: rest -> isWhiteSpace c = false).
Proof.
  induction s as [|c s (a & E & Fa & H)].
  - exists []. repeat split; [constructor | discriminate].
  - cbn [trimStart]. destruct (isWhiteSpace c) eqn:W.
    + exists (c :: a). cbn. rewrite <- E. auto.
    + exists []. repeat split; [constructor|].
      intros c' rest [= <- _]. exact W.
Qed.

(** [trim] removes white space at both ends and nothing else. *)
Lemma trim_spec (s : jsstring) :
  exists a b,
    s = a ++ trim s ++ b
    /\ Forall (fun c => isWhiteSpace c = true) a
    /\ Forall (fun c => isWhiteSpace c = true) b
    /\ noOuterWhiteSpace (trim s).
Proof.
  destruct (trimStart_spec s) as (a & Es & Fa & Hhead).
  destruct (trimStart_spec (rev (trimStart s))) as (b & Er & Fb & Hlast).
  assert (Et : trimStart s = trim s ++ rev b).
  { unfold trim, trimEnd. rewrite <- rev_app_distr, <- Er.
    now rewrite rev_involutive. }
  exists a, (rev b). repeat split.
  - now rewrite <- Et.
  - exact Fa.
  - now apply Forall_rev.
  - intros c rest E. apply (Hhead c (rest ++ rev b)).
    rewrite Et, E. reflexivity.
  - intros c front E. apply (Hlast c (rev front)).
    unfold trim, trimEnd in E.
    apply (f_equal (@rev N)) in E.
    rewrite rev_involutive, rev_app_distr in E. exact E.
Qed.

(** X4: merchant and description of a transaction neither start nor end
    with white space, and the merchant is the merchant cell (or
    ["Unknown"]) with nothing but white space taken off its two ends; a
    merchant cell of white space only gives the empty merchant. *)
Theorem parsed_text_is_trimmed
    (row : Row) (columnMap : ColumnMap) (t : ParsedTransaction)
    (Hparsed : parseRow row columnMap = Parsed t) :
  noOuterWhiteSpace (tx_merchant t)
  /\ noOuterWhiteSpace (tx_description t)
  /\ exists a b,
       or_else (row_at row (cm_merchant columnMap)) (u "Unknown")
       = a ++ tx_merchant t ++ b
       /\ Forall (fun c => isWhiteSpace c = true) a
       /\ Forall (fun c => isWhiteSpace c = true) b.
Proof.
  revert Hparsed. unfold CsvParser.parseRow.
  destruct (row_at row (cm_date columnMap)) as [d|]; [|discriminate].
  destruct (row_at row (cm_amount columnMap)) as [a|]; [|discriminate].
  destruct (negb (truthy_string d) || negb (truthy_string a)); [discriminate|].
  destruct (parseDate DateCtor d); [|discriminate].
  destruct (isNaN (parseAmount a)); [discriminate|].
  intros [= <-]. cbn [tx_description tx_merchant].
  set (m := or_else (row_at row (cm_merchant columnMap)) (u "Unknown")).
  destruct (trim_spec m) as (x & y & E & Fx & Fy & Nm).
  destruct (trim_spec (or_else (row_at row (cm_description columnMap)) m))
    as (_ & _ & _ & _ & _ & Nd).
  split; [exact Nm|]. split; [exact Nd|]. eauto.
Qed.

Lemma rowErrors_app (columnMap : ColumnMap) (rows1 rows2 : list Row) :
  forall index,
    rowErrors columnMap (rows1 ++ rows2) index
    = rowErrors columnMap rows1 index
      ++ rowErrors columnMap rows2 (index + Z.of_nat (List.length rows1)).
Proof.
  induction rows1 as [|r rest IH]; intro index.
  - cbn. now replace (index + 0)%Z with index by lia.
  - cbn [app Policy.rowErrors List.length]. rewrite IH, <- app_assoc.
    do 3 f_equal. lia.
Qed.

Lemma rowErrors_length (columnMap : ColumnMap) (rows : list Row) :
  forall i j,
    List.length (rowErrors columnMap rows i)
    = List.length (rowErrors columnMap rows j).
Proof.
  induction rows as [|r rest IH]; intros i j; [reflexivity|].
  cbn [Policy.rowErrors]. rewrite !length_app.
  f_equal; [destruct (parseRow r columnMap); reflexivity | apply IH].
Qed.

(** X10: rows are handled independently and in order.  With both required
    columns mapped, the transactions of a file whose data rows are
    [rows1 ++ rows2] are those of [rows1] followed by those of [rows2],
    and its errors are those of the file with [rows1] alone followed by as
    many errors as [rows2] alone produces. *)
Theorem parseCSV_rows_append
    (result : PapaResult) (rows1 rows2 : list Row)
    (Hdate : cm_date (columnsOf result) <> None)
    (Hamount : cm_amount (columnsOf result) <> None) :
  let parse rows := parseCSV (PapaReturned (withData result rows)) in
  transactions (parse (rows1 ++ rows2))
  = transactions (parse rows1) ++ transactions (parse rows2)
  /\ exists later,
       errors (parse (rows1 ++ rows2)) = errors (parse rows1) ++ later
       /\ (List.length (papa_errors result) + List.length later
           = List.length (errors (parse rows2)))%nat.
Proof.
  intro parse. subst parse. cbv beta.
  destruct (ParserFacts.parseCSV_mapped toLowerCase DateCtor
              (withData result (rows1 ++ rows2)) Hdate Hamount) as [Ht He].
  destruct (ParserFacts.parseCSV_mapped toLowerCase DateCtor
              (withData result rows1) Hdate Hamount) as [Ht1 He1].
  destruct (ParserFacts.parseCSV_mapped toLowerCase DateCtor
              (withData result rows2) Hdate Hamount) as [Ht2 He2].
  cbn [withData papa_data papa_errors] in *.
  change (headersOf (withData result _)) with (headersOf result) in *.
  rewrite Ht, Ht1, Ht2, He, He1, He2.
  split.
  - unfold Policy.rowTransactions. apply flat_map_app.
  - rewrite rowErrors_app.
    eexists. split; [now rewrite app_assoc|].
    rewrite length_app, length_map. f_equal. apply rowErrors_length.
Qed.

End Results.

(** X2 on the sample file: its second data row has the date
    [invalid-date]. *)
Lemma row_errors_are_labelled_witness :
  cm_date (detectColumnMappings toLowerCase_ascii (headersOf mixedFile)) <> None
  /\ cm_amount (detectColumnMappings toLowerCase_ascii (headersOf mixedFile)) <> None
  /\ nth_error (papa_data mixedFile) 1 = Some (row3 "invalid-date" "Test2" "-20.00")
  /\ CsvParser.parseRow (DateCtor 0) (row3 "invalid-date" "Test2" "-20.00")
       (detectColumnMappings toLowerCase_ascii (headersOf mixedFile))
     = Threw (u "Invalid date format: invalid-date")
  /\ In (rowLabel 1 (u "Invalid date format: invalid-date"))
        (errors (CsvParser.parseCSV toLowerCase_ascii (DateCtor 0)
                   (PapaReturned mixedFile))).
Proof.
  assert (Hd : cm_date (detectColumnMappings toLowerCase_ascii (headersOf mixedFile))
               <> None) by (vm_compute; discriminate).
  assert (Ha : cm_amount (detectColumnMappings toLowerCase_ascii (headersOf mixedFile))
               <> None) by (vm_compute; discriminate).
  split; [exact Hd|]. split; [exact Ha|].
  split; [reflexivity|]. split; [reflexivity|].
  exact (proj1 (row_errors_are_labelled toLowerCase_ascii (DateCtor 0)
                  mixedFile 1 Hd Ha eq_refl eq_refl)).
Defined.

(** X3 on the first row of the sample file, which has no description
    column. *)
Lemma description_defaults_to_merchant_witness :
  let columnMap := detectColumnMappings toLowerCase_ascii (headersOf mixedFile) in
  let row := row3 "2024-01-15" "Test1" "-10.00" in
  exists t,
    CsvParser.parseRow (DateCtor 0) row columnMap = Parsed t
    /\ truthy_opt (row_at row (cm_description columnMap)) = false
    /\ tx_description t = tx_merchant t
    /\ tx_merchant t = u "Test1".
Proof.
  eexists. split; [reflexivity|]. split; [reflexivity|].
  split.
  - exact (proj1 (description_defaults_to_merchant (DateCtor 0)
                    (row3 "2024-01-15" "Test1" "-10.00")
                    (detectColumnMappings toLowerCase_ascii (headersOf mixedFile))
                    eq_refl eq_refl)).
  - reflexivity.
Defined.

(** X4 on a row whose merchant cell is padded with blanks. *)
Lemma parsed_text_is_trimmed_witness :
  let columnMap := detectColumnMappings toLowerCase_ascii (headersOf mixedFile) in
  let row := row3 "2024-01-15" "  Whole Foods  " "  -87.50  " in
  exists t,
    CsvParser.parseRow (DateCtor 0) row columnMap = Parsed t
    /\ tx_merchant t = u "Whole Foods"
    /\ noOuterWhiteSpace (tx_merchant t).
Proof.
  eexists. split; [reflexivity|]. split; [reflexivity|].
  exact (proj1 (parsed_text_is_trimmed (DateCtor 0)
                  (row3 "2024-01-15" "  Whole Foods  " "  -87.50  ")
                  (detectColumnMappings toLowerCase_ascii (headersOf mixedFile))
                  eq_refl)).
Defined.

(** X10 on the sample file, split after its second data row. *)
Lemma parseCSV_rows_append_witness :
  cm_date (detectColumnMappings toLowerCase_ascii (headersOf mixedFile)) <> None
  /\ cm_amount (detectColumnMappings toLowerCase_ascii (headersOf mixedFile)) <> None
  /\ let parse rows :=
       CsvParser.parseCSV toLowerCase_ascii (DateCtor 0)
         (PapaReturned (withData mixedFile rows)) in
     transactions (parse (firstn 2 (papa_data mixedFile)
                          ++ skipn 2 (papa_data mixedFile)))
     = transactions (parse (firstn 2 (papa_data mixedFile)))
       ++ transactions (parse (skipn 2 (papa_data mixedFile))).
Proof.
  assert (Hd : cm_date (detectColumnMappings toLowerCase_ascii (headersOf mixedFile))
               <> None) by (vm_compute; discriminate).
  assert (Ha : cm_amount (detectColumnMappings toLowerCase_ascii (headersOf mixedFile))
               <> None) by (vm_compute; discriminate).
  split; [exact Hd|]. split; [exact Ha|].
  exact (proj1 (parseCSV_rows_append toLowerCase_ascii (DateCtor 0) mixedFile
                  (firstn 2 (papa_data mixedFile)) (skipn 2 (papa_data mixedFile))
                  Hd Ha)).
Defined.

End RowFacts.

(* ================================================================== *)
(** ** More on amounts *)
(* ================================================================== *)

Module SignFacts.
Import CsvParser Policy Notions.

#[local] Abbreviation kept := (fun c : N => negb (isStripped c)).

(** X5: a currency sign, comma or white-space character is ignored
    wherever it stands in the amount, also inside the number: the position
    of a thousands separator is not looked at. *)
Theorem parseAmount_ignores_stripped
    (front back : jsstring) (c : N) (Hc : isStripped c = true) :
  parseAmount (front ++ c :: back) = parseAmount (front ++ back).
Proof.
  unfold parseAmount, cleanAmount.
  rewrite !filter_app. cbn [filter]. rewrite Hc. reflexivity.
Qed.

(** X5 on [1,234.56] and, with the comma in an odd place, [12,34.56]. *)
Lemma parseAmount_ignores_stripped_witness :
  isStripped 44 = true
  /\ parseAmount (u "1" ++ 44%N :: u "234.56") = parseAmount (u "1" ++ u "234.56")
  /\ parseAmount (u "12,34.56") = parseAmount (u "1,234.56").
Proof.
  split; [reflexivity|].
  split.
  - exact (@parseAmount_ignores_stripped (u "1") (u "234.56") 44%N eq_refl).
  - reflexivity.
Defined.

Lemma decimal_negate (m e : Z) : negate (decimal m e) = decimal (- m) e.
Proof.
  unfold decimal. destruct (0 <=? e)%Z; cbn [negate]; f_equal;
    apply Qc_is_canon; cbn [this Qcopp Q2Qc];
    rewrite !Qred_correct; unfold Qeq; cbn [Qnum Qden Qopp]; lia.
Qed.

(** A minus sign in front of an unsigned text negates what is read. *)
Lemma scanDecimal_minus (s : jsstring) :
  (forall c rest, s = c :: rest -> c <> 43%N /\ c <> 45%N) ->
  scanDecimal (45%N :: s)
  = option_map (fun vr => (negate (fst vr), snd vr)) (scanDecimal s).
Proof.
  intro H. unfold scanDecimal.
  replace (match s with
           | [] => (false, s)
           | c :: r =>
               if (c =? 45)%N then (true, r)
               else if (c =? 43)%N then (false, r) else (false, s)
           end) with (false, s).
  2:{ destruct s as [|c r]; [reflexivity|].
      destruct (H c r eq_refl) as [H1 H2].
      apply N.eqb_neq in H1, H2. now rewrite H1, H2. }
  cbn [N.eqb Pos.eqb].
  destruct (startsWith s (u "Infinity")); [reflexivity|].
  destruct (span isDigit s) as [ip r1].
  destruct (match r1 with [] => _ | _ => _ end) as [fp r2].
  destruct (ip ++ fp); [reflexivity|].
  destruct (scanExponent r2) as [e rest].
  cbn [option_map fst snd]. now rewrite decimal_negate.
Qed.

(** X6: an amount wrapped in parentheses is the negative of the amount
    inside, whenever the inside (after cleaning) does not itself begin
    with a parenthesis or a sign: [(87.50)] is -87.5. *)
Theorem parseAmount_parenthesized_negates
    (inner : jsstring)
    (Hinner : forall c rest,
        filter (fun c => negb (isStripped c)) inner = c :: rest ->
        c <> 40%N /\ c <> 43%N /\ c <> 45%N) :
  parseAmount (u "(" ++ inner ++ u ")") = negate (parseAmount inner).
Proof.
  unfold parseAmount at 1.
  rewrite AmountFacts.cleanAmount_parenthesized.
  assert (Ec : cleanAmount inner = filter kept inner).
  { unfold cleanAmount.
    destruct (filter kept inner) as [|c rest] eqn:E; [reflexivity|].
    destruct (Hinner c rest eq_refl) as (H40 & _).
    cbn [startsWith u List.map list_ascii_of_string].
    apply N.eqb_neq in H40. rewrite N.eqb_sym in H40.
    change (N_of_ascii "("%char) with 40%N. now rewrite H40. }
  pose proof (AmountFacts.trimStart_cleanAmount inner) as Et.
  unfold parseAmount, parseFloat. rewrite Et, Ec.
  change (trimStart (u "-" ++ filter kept inner))
    with (45%N :: filter kept inner).
  rewrite scanDecimal_minus.
  - destruct (scanDecimal (filter kept inner)) as [[v r]|]; reflexivity.
  - intros c rest E. destruct (Hinner c rest E) as (_ & H1 & H2). auto.
Qed.

(** X6 on [(87.50)]. *)
Lemma parseAmount_parenthesized_negates_witness :
  (forall c rest,
      filter (fun c => negb (isStripped c)) (u "87.50") = c :: rest ->
      c <> 40%N /\ c <> 43%N /\ c <> 45%N)
  /\ parseAmount (u "(" ++ u "87.50" ++ u ")") = negate (parseAmount (u "87.50"))
  /\ parseAmount (u "(87.50)") = decimal (-875) (-1).
Proof.
  assert (H : forall c rest,
             filter (fun c => negb (isStripped c)) (u "87.50") = c :: rest ->
             c <> 40%N /\ c <> 43%N /\ c <> 45%N).
  { intros c rest E. vm_compute in E. injection E as <- _.
    repeat split; discriminate. }
  split; [exact H|]. split.
  - exact (@parseAmount_parenthesized_negates (u "87.50") H).
  - apply AmountFacts.Fin_canon. reflexivity.
Defined.

End SignFacts.

(* ================================================================== *)
(** ** More on the categorizer *)
(* ================================================================== *)

Module ResponseFacts.
Import Categorizer Policy Notions StringFacts.

Lemma Qc_ltb_lt (a b : Qc) : Qc_ltb a b = true -> a < b.
Proof.
  unfold Qc_ltb. destruct (a ?= b) eqn:E; try discriminate.
  intros _. exact E.
Qed.

(** The clamp gives a number between 0 and 1, or [NaN] for [NaN]. *)
Lemma clamp_range (x : number) :
  Math_max (num 0 0) (Math_min (num 1 0) x) = NaN
  \/ inUnitInterval (Math_max (num 0 0) (Math_min (num 1 0) x)).
Proof.
  assert (Z01 : Q2Qc 0 <= Q2Qc 1) by (now apply Qclt_le_weak).
  destruct x as [|[|]|q].
  - left. reflexivity.
  - right. exists (Q2Qc 0). repeat split; [apply Qcle_refl | exact Z01].
  - right. exists (Q2Qc 1). repeat split; [exact Z01 | apply Qcle_refl].
  - right. change (num 0 0) with (Fin (Q2Qc 0)).
    change (num 1 0) with (Fin (Q2Qc 1)).
    cbn [Math_min num_gt].
    destruct (Qc_ltb q (Q2Qc 1)) eqn:L1; cbn [Math_max num_gt].
    + destruct (Qc_ltb (Q2Qc 0) q) eqn:L0.
      * exists q. repeat split.
        -- apply Qclt_le_weak, Qc_ltb_lt, L0.
        -- apply Qclt_le_weak, Qc_ltb_lt, L1.
      * exists (Q2Qc 0). repeat split; [apply Qcle_refl | exact Z01].
    + change (Qc_ltb (Q2Qc 0) (Q2Qc 1)) with true. cbv iota.
      exists (Q2Qc 1). repeat split; [exact Z01 | apply Qcle_refl].
Qed.

Section Responses.

Variable toLowerCase : jsstring -> jsstring.
Variable JSON_parse : jsstring -> option jsval.
Variable StringToNumber : jsstring -> number.
Variable ObjectToNumber : jsval -> number.
Variable buildCategorizationPrompt : jsstring -> jsstring -> number -> jsstring.

#[local] Abbreviation parseResponse :=
  (parseCategorizationResponse JSON_parse StringToNumber ObjectToNumber).
#[local] Abbreviation categorize claude openai :=
  (categorizeTransaction toLowerCase JSON_parse StringToNumber ObjectToNumber
     claude openai buildCategorizationPrompt).

(** X11: whatever the provider answered, the confidence that
    [parseCategorizationResponse] returns is a number between 0 and 1, or
    it is [NaN]; it is never negative and never above 1. *)
Theorem parsed_confidence_is_clamped (text : option jsstring) :
  confidence (parseResponse text) = NaN
  \/ inUnitInterval (confidence (parseResponse text)).
Proof.
  assert (F : inUnitInterval (confidence parseFailure)).
  { exists (Q2Qc 0). repeat split; [apply Qcle_refl|].
    now apply Qclt_le_weak. }
  unfold parseCategorizationResponse.
  destruct text as [text|]; [|now right].
  destruct (jsonMatch text) as [json|]; [|now right].
  destruct (JSON_parse json) as [result|]; [|now right].
  destruct (properties result) as [props|]; [|now right].
  cbn [confidence]. apply clamp_range.
Qed.

(** X13: one provider at most is consulted, selected by the keys, the
    Anthropic key first: with that key set the result does not depend on
    the OpenAI provider, and without it the result does not depend on the
    Anthropic provider. *)
Theorem provider_is_selected_by_key
    (env : Env) (merchant description : jsstring) (amount : number)
    (claude1 claude2 openai1 openai2 : jsstring -> Remote) :
  if truthy_opt (ANTHROPIC_API_KEY env)
  then categorize claude1 openai1 env merchant description amount
       = categorize claude1 openai2 env merchant description amount
  else categorize claude1 openai1 env merchant description amount
       = categorize claude2 openai1 env merchant description amount.
Proof.
  unfold categorizeTransaction.
  destruct (truthy_opt (ANTHROPIC_API_KEY env)) eqn:A;
    cbv beta zeta iota; rewrite ?A; reflexivity.
Qed.

(** X14: when one of the sixteen keywords occurs in the lower-cased
    merchant and description, the amount plays no part and the category
    is one of Groceries, Dining, Transport, Subscriptions (a refund at a
    grocery store is not Income); when none occurs, the result is Income
    for an amount above zero and Uncategorized otherwise. *)
Theorem keyword_match_ignores_amount
    (merchant description : jsstring) (amount : number) :
  let text := toLowerCase (merchant ++ u " " ++ description) in
  let result := ruleBasedCategorization toLowerCase merchant description amount in
  if existsb (includes text) ruleKeywords
  then (forall other,
           ruleBasedCategorization toLowerCase merchant description other
           = result)
       /\ In (category result)
             (List.map VStr [u "Groceries"; u "Dining"; u "Transport";
                             u "Subscriptions"])
  else result
       = if num_gt amount (num 0 0)
         then rule "Income" VUndefined (num 5 (-1))
                   "Positive amount suggests income"
         else rule "Uncategorized" VUndefined (num 0 0)
                   "No matching rules found".
Proof.
  cbv zeta. unfold ruleBasedCategorization.
  set (text := toLowerCase (merchant ++ u " " ++ description)).
  cbn [ruleKeywords existsb]. rewrite orb_false_r, !orb_assoc.
  set (grocery := includes text (u "grocery") || includes text (u "market")
                  || includes text (u "whole foods")
                  || includes text (u "trader joe")).
  set (dining := includes text (u "restaurant") || includes text (u "cafe")
                 || includes text (u "coffee") || includes text (u "food")).
  set (fuel := includes text (u "gas") || includes text (u "fuel")
               || includes text (u "shell") || includes text (u "chevron")).
  set (subscription := includes text (u "netflix") || includes text (u "spotify")
                       || includes text (u "subscription")
                       || includes text (u "hulu")).
  replace (_ || includes text (u "hulu"))
    with (grocery || dining || fuel || subscription)
    by (unfold grocery, dining, fuel, subscription; now rewrite !orb_assoc).
  destruct grocery; [split; [reflexivity | cbn; tauto]|].
  destruct dining; [split; [reflexivity | cbn; tauto]|].
  destruct fuel; [split; [reflexivity | cbn; tauto]|].
  destruct subscription; [split; [reflexivity | cbn; tauto]|].
  reflexivity.
Qed.

End Responses.

Lemma dropUntil_found (c : N) (front rest : jsstring) :
  ~ In c front -> dropUntil c (front ++ c :: rest) = c :: rest.
Proof.
  induction front as [|d front IH]; intro H; cbn [app dropUntil].
  - now rewrite N.eqb_refl.
  - destruct (N.eqb_spec d c) as [->|_]; [cbn in H; tauto|].
    apply IH. cbn in H. tauto.
Qed.

Lemma dropUntil_spec (c : N) (s : jsstring) :
  (dropUntil c s = [] /\ ~ In c s)
  \/ (exists front rest,
         s = front ++ c :: rest /\ ~ In c front /\ dropUntil c s = c :: rest).
Proof.
  induction s as [|d s IH]; cbn [dropUntil].
  - left. split; [reflexivity | tauto].
  - destruct (N.eqb_spec d c) as [->|Hd].
    + right. exists [], s. repeat split. tauto.
    + destruct IH as [[E Hn] | (front & rest & -> & Hn & E)].
      * left. split; [exact E|]. cbn. tauto.
      * right. exists (d :: front), rest. repeat split; [|exact E].
        cbn. tauto.
Qed.

(** X12: the span taken from an answer runs from its first opening brace
    to its last closing brace: there is a match exactly when a closing
    brace follows the first opening one, and then everything in between
    is taken, including any further braces and the text between two
    separate objects. *)
Theorem jsonMatch_is_first_to_last_brace (text json : jsstring) :
  jsonMatch text = Some json <->
  exists front middle back,
    text = front ++ 123%N :: middle ++ 125%N :: back
    /\ ~ In 123%N front
    /\ ~ In 125%N back
    /\ json = 123%N :: middle ++ [125%N].
Proof.
  unfold jsonMatch. split.
  - destruct (dropUntil_spec 123 text)
      as [[E _] | (front & after & -> & Hf & E)]; rewrite E; [discriminate|].
    destruct (dropUntil_spec 125 (rev after))
      as [[E' _] | (p & r & Er & Hp & E')]; rewrite E'; [discriminate|].
    intros [= <-].
    exists front, (rev r), (rev p).
    assert (Ea : after = rev r ++ 125%N :: rev p).
    { rewrite <- (rev_involutive after), Er, rev_app_distr.
      cbn [rev]. now rewrite <- app_assoc. }
    repeat split.
    + now rewrite Ea.
    + exact Hf.
    + now rewrite <- in_rev.
  - intros (front & middle & back & -> & Hf & Hb & ->).
    rewrite (@dropUntil_found 123 front _ Hf).
    assert (Er : rev (middle ++ 125%N :: back) = rev back ++ 125%N :: rev middle).
    { rewrite rev_app_distr. cbn [rev]. now rewrite <- app_assoc. }
    rewrite Er, dropUntil_found by (now rewrite <- in_rev).
    cbn [rev]. now rewrite rev_involutive.
Qed.

Section PromptText.

Variable Number_toString : number -> jsstring.

#[local] Abbreviation build := (Prompt.buildCategorizationPrompt Number_toString).

Lemma includes_app_l (a b p : jsstring) :
  includes a p = true -> includes (a ++ b) p = true.
Proof.
  rewrite !includes_iff. intros (x & y & ->).
  exists x, (y ++ b). now rewrite <- !app_assoc.
Qed.

Lemma includes_app_r (a b p : jsstring) :
  includes b p = true -> includes (a ++ b) p = true.
Proof.
  rewrite !includes_iff. intros (x & y & ->).
  exists (a ++ x), y. now rewrite <- !app_assoc.
Qed.

(** X15: the prompt is a fixed head, the merchant between double quotes,
    the description between double quotes on the next line, the amount as
    text, and a fixed tail; merchant and description are inserted as they
    are, with nothing escaped.  The head names every category and every
    subcategory of the taxonomy. *)
Theorem prompt_has_fixed_frame
    (merchant description : jsstring) (amount : number) :
  build merchant description amount
  = Prompt.promptHead ++ Prompt.inQuotes merchant ++ Prompt.newline
    ++ u "Description: " ++ Prompt.inQuotes description ++ Prompt.newline
    ++ u "Amount: " ++ Number_toString amount ++ Prompt.promptTail
  /\ Forall (fun c => includes (build merchant description amount) (fst c) = true
                      /\ Forall (fun sub =>
                                   includes (build merchant description amount) sub
                                   = true) (snd c))
            CATEGORIES
  /\ includes (build merchant description amount) (Prompt.inQuotes merchant) = true
  /\ includes (build merchant description amount) (Prompt.inQuotes description)
     = true.
Proof.
  assert (E : build merchant description amount
              = Prompt.promptHead ++ Prompt.inQuotes merchant ++ Prompt.newline
                ++ u "Description: " ++ Prompt.inQuotes description
                ++ Prompt.newline ++ u "Amount: " ++ Number_toString amount
                ++ Prompt.promptTail).
  { vm_compute. reflexivity. }
  split; [exact E|]. rewrite E. split; [|split].
  - assert (H : forallb (fun c => includes Prompt.promptHead (fst c)
                                  && forallb (includes Prompt.promptHead) (snd c))
                        CATEGORIES = true)
      by (vm_compute; reflexivity).
    rewrite forallb_forall in H. apply Forall_forall. intros c Hc.
    apply H, andb_true_iff in Hc as [Hname Hsubs].
    split; [apply includes_app_l; exact Hname|].
    rewrite forallb_forall in Hsubs. apply Forall_forall. intros sub Hsub.
    apply includes_app_l, Hsubs, Hsub.
  - apply includes_middle.
  - do 4 apply includes_app_r. apply (includes_middle [] _ _).
Qed.

End PromptText.

End ResponseFacts.

(* ================================================================== *)
(** ** The transactions route *)
(* ================================================================== *)

Module RouteFacts.
Import Categorizer DedupHash Route.

Lemma str_eqb_eq (a b : jsstring) : str_eqb a b = true <-> a = b.
Proof.
  revert b. induction a as [|x a IH]; intros [|y b]; cbn [str_eqb];
    try (split; [discriminate | intro E; discriminate]).
  - split; reflexivity.
  - rewrite andb_true_iff, N.eqb_eq, IH. split.
    + intros [-> ->]. reflexivity.
    + intros [= -> ->]. auto.
Qed.

Section Handlers.

Variable Store : Type.
Variable UserId : Type.
Variable Transaction : Type.
Variable findUser : Store -> jsstring -> Outcome (option UserId).
Variable createUser : Store -> jsstring -> jsstring -> Outcome (Store * UserId).
Variable findTransaction : Store -> jsstring -> Outcome (option Transaction).
Variable createTransaction :
  Store -> TransactionData UserId -> Outcome (Store * Transaction).
Variable findMany : Store -> UserId -> Outcome (list Transaction).
Variable Number_toString : number -> jsstring.
Variable ObjectToString : jsval -> option jsstring.
Variable DateOf : jsval -> option Z.
Variable TextEncoder_encode : jsstring -> list byte.
Variable digest_SHA256 : list byte -> list byte.

#[local] Abbreviation post :=
  (POST findUser findTransaction createTransaction Number_toString
     ObjectToString DateOf TextEncoder_encode digest_SHA256).
#[local] Abbreviation get := (GET findUser createUser findMany).
#[local] Abbreviation hashOf props :=
  (generateHash_values Number_toString ObjectToString TextEncoder_encode
     digest_SHA256
     (prop_get props (u "date")) (prop_get props (u "amount"))
     (prop_get props (u "merchant")) (prop_get props (u "description"))).
#[local] Abbreviation required props :=
  (truthy (prop_get props (u "date")) && truthy (prop_get props (u "amount"))
   && truthy (prop_get props (u "merchant"))).
#[local] Abbreviation failed message code :=
  (@errorResponse Transaction message code).

(** Authentication comes first: without a user id (none, or the empty
    string) the answer of [POST] is 401 and the database is untouched,
    whatever the body is, also when reading the body throws. *)
Lemma POST_requires_user
    (store : Store) (authInfo : AuthInfo) (bodyResult : Outcome jsval)
    (Hnone : truthy_opt (userId authInfo) = false) :
  post store (Gives authInfo) bodyResult = (store, failed "Unauthorized" 401).
Proof.
  unfold POST. destruct (userId authInfo) as [clerkId|]; [|reflexivity].
  cbn [truthy_opt] in Hnone. now rewrite Hnone.
Qed.

(** X16: for an authenticated request whose body lacks a truthy date,
    amount or merchant, the answer is 400 and the database is neither
    read nor written.  An amount of zero and an empty merchant count as
    missing. *)
Theorem POST_rejects_missing_fields
    (store : Store) (authInfo : AuthInfo) (clerkId : jsstring)
    (requestBody : jsval) (props : list (jsstring * jsval))
    (Huser : userId authInfo = Some clerkId)
    (Hid : truthy_string clerkId = true)
    (Hbody : properties requestBody = Some props)
    (Hmissing : required props = false) :
  post store (Gives authInfo) (Gives requestBody)
  = (store, failed "Missing required fields" 400)
  /\ truthy (VNum (num 0 0)) = false
  /\ truthy (VStr []) = false.
Proof.
  repeat split. unfold POST. rewrite Huser, Hid, Hbody. cbn [negb].
  replace (negb _ || negb _ || negb _) with true; [reflexivity|].
  symmetry. rewrite <- !negb_andb. now rewrite Hmissing.
Qed.

(** What a 201 tells. *)
Lemma POST_created (store store' : Store) (authResult : Outcome AuthInfo)
    (bodyResult : Outcome jsval) (response : Response Transaction) :
  post store authResult bodyResult = (store', response) ->
  status response = 201%Z ->
  exists authInfo clerkId requestBody props user hash transaction,
    authResult = Gives authInfo
    /\ userId authInfo = Some clerkId
    /\ truthy_string clerkId = true
    /\ bodyResult = Gives requestBody
    /\ properties requestBody = Some props
    /\ required props = true
    /\ findUser store clerkId = Gives (Some user)
    /\ hashOf props = Some hash
    /\ findTransaction store hash = Gives None
    /\ createTransaction store
         {| td_userId := user;
            td_date := DateOf (prop_get props (u "date"));
            td_amount := prop_get props (u "amount");
            td_merchantRaw := prop_get props (u "merchant");
            td_merchantNormalized := prop_get props (u "merchant");
            td_description :=
              js_or (prop_get props (u "description"))
                    (prop_get props (u "merchant"));
            td_categoryId := prop_get props (u "categoryId");
            td_hash := hash |}
       = Gives (store', transaction)
    /\ body response = TransactionBody transaction.
Proof.
  unfold POST.
  destruct authResult as [|authInfo]; [intros [= _ <-]; discriminate|].
  destruct (userId authInfo) as [clerkId|] eqn:Hu;
    [|intros [= _ <-]; discriminate].
  destruct (truthy_string clerkId) eqn:Hid; cbn [negb];
    [|intros [= _ <-]; discriminate].
  destruct bodyResult as [|requestBody]; [intros [= _ <-]; discriminate|].
  destruct (properties requestBody) as [props|] eqn:Hp;
    [|intros [= _ <-]; discriminate].
  destruct (negb _ || negb _ || negb _) eqn:Hr;
    [intros [= _ <-]; discriminate|].
  destruct (findUser store clerkId) as [|[user|]] eqn:Hf;
    try (intros [= _ <-]; discriminate).
  destruct (generateHash_values _ _ _ _ _ _ _ _) as [hash|] eqn:Hh;
    [|intros [= _ <-]; discriminate].
  destruct (findTransaction store hash) as [|[existing|]] eqn:Ht;
    try (intros [= _ <-]; discriminate).
  destruct (createTransaction store _) as [|[s t]] eqn:Hc;
    [intros [= _ <-]; discriminate|].
  intros [= <- <-] _.
  exists authInfo, clerkId, requestBody, props, user, hash, t.
  repeat split; try assumption; try reflexivity.
  rewrite <- !negb_andb in Hr. now apply negb_false_iff in Hr.
Qed.

(** X17: the answer of [POST] has one of the statuses 201, 400, 401, 404,
    409, 500, and the database changes only with a 201: then exactly one
    [create] was made, for a user that exists and with a hash that no
    stored transaction had; with every other status the database is as
    before. *)
Theorem POST_writes_only_on_created
    (store : Store) (authResult : Outcome AuthInfo) (bodyResult : Outcome jsval) :
  let after := fst (post store authResult bodyResult) in
  let response := snd (post store authResult bodyResult) in
  In (status response) [201; 400; 401; 404; 409; 500]%Z
  /\ if (status response =? 201)%Z
     then exists data transaction clerkId,
            createTransaction store data = Gives (after, transaction)
            /\ body response = TransactionBody transaction
            /\ findUser store clerkId = Gives (Some (td_userId data))
            /\ findTransaction store (td_hash data) = Gives None
     else after = store.
Proof.
  cbv zeta.
  destruct (post store authResult bodyResult) as [after response] eqn:E.
  cbn [fst snd].
  destruct (status response =? 201)%Z eqn:S.
  - apply Z.eqb_eq in S. split; [rewrite S; cbn; tauto|].
    destruct (@POST_created _ _ _ _ _ E S)
      as (a & c & b & p & user & h & t & _ & _ & _ & _ & _ & _ & Hf & _ & Ht & Hc & Hb).
    eexists _, t, c. cbn [td_userId td_hash]. eauto.
  - revert E S. unfold POST.
    repeat match goal with
           | |- context [match ?x with _ => _ end] =>
               lazymatch x with
               | context [match _ with _ => _ end] => fail
               | _ => destruct x
               end
           end;
      intros [= <- <-] S; cbn [status errorResponse internalError] in *;
      try discriminate; (split; [cbn; tauto | reflexivity]).
Qed.

(** A user that was created is found under its Clerk id. *)
Hypothesis created_user_is_found :
  forall (s : Store) (clerkId email : jsstring) (s' : Store) (user : UserId),
    createUser s clerkId email = Gives (s', user) ->
    findUser s' clerkId = Gives (Some user).

(** X19: [GET] registers a new user, and then [POST] knows the user.  When
    [GET] answers 200, either the user was known and the database is
    untouched, or the user was created with the Clerk id and the first
    e-mail address (the empty text when there is none); in both cases a
    [POST] with the same authentication that follows is never answered
    with 404. *)
Theorem GET_registers_the_user
    (store store' : Store) (authInfo : AuthInfo) (authAgain : Outcome AuthInfo)
    (response : Response Transaction) (bodyResult : Outcome jsval)
    (Hget : get store (Gives authInfo) authAgain = (store', response))
    (Hok : status response = 200%Z) :
  (exists clerkId,
      userId authInfo = Some clerkId
      /\ ((exists user, findUser store clerkId = Gives (Some user)
                        /\ store' = store)
          \/ (exists again user,
                 findUser store clerkId = Gives None
                 /\ authAgain = Gives again
                 /\ createUser store clerkId (firstEmail again)
                    = Gives (store', user))))
  /\ status (snd (post store' (Gives authInfo) bodyResult)) <> 404%Z.
Proof.
  revert Hget. unfold GET.
  destruct (userId authInfo) as [clerkId|] eqn:Hu;
    [|intros [= _ <-]; discriminate].
  destruct (truthy_string clerkId) eqn:Hid; cbn [negb];
    [|intros [= _ <-]; discriminate].
  assert (Hpost : forall user,
             findUser store' clerkId = Gives (Some user) ->
             status (snd (post store' (Gives authInfo) bodyResult)) <> 404%Z).
  { intros user Hf. unfold POST. rewrite Hu, Hid, Hf. cbn [negb].
    repeat match goal with
           | |- context [match ?x with _ => _ end] =>
               lazymatch x with
               | context [match _ with _ => _ end] => fail
               | _ => destruct x
               end
           end; cbn; discriminate. }
  assert (Hfetch : forall s user r,
             fetchTransactions findMany s user = (store', r) -> s = store').
  { intros s user r. unfold fetchTransactions.
    destruct (findMany s user); now intros [= -> _]. }
  destruct (findUser store clerkId) as [|[user|]] eqn:Hf;
    [intros [= _ <-]; discriminate | |].
  - intro Hg. apply Hfetch in Hg. subst store'. split.
    + exists clerkId. split; [reflexivity|]. left. eauto.
    + exact (Hpost user Hf).
  - destruct authAgain as [|again]; [intros [= _ <-]; discriminate|].
    destruct (createUser store clerkId (firstEmail again)) as [|[s user]] eqn:Hc;
      [intros [= _ <-]; discriminate|].
    intro Hg. apply Hfetch in Hg. subst s. split.
    + exists clerkId. split; [reflexivity|]. right. eauto.
    + exact (Hpost user (created_user_is_found Hc)).
Qed.

(** The database finds a transaction by its hash once it is created, and
    creating a transaction does not touch the users. *)
Hypothesis created_is_found :
  forall (s : Store) (data : TransactionData UserId) (s' : Store) (t : Transaction),
    createTransaction s data = Gives (s', t) ->
    exists t', findTransaction s' (td_hash data) = Gives (Some t').
Hypothesis users_are_kept :
  forall s data s' t clerkId,
    createTransaction s data = Gives (s', t) ->
    findUser s' clerkId = findUser s clerkId.

(** X18: deduplication.  After a request was answered with 201, a request
    of the same user whose date, amount, merchant and description give
    the same hash (the same request again, for one) is answered with 409
    and leaves the database as the first request left it. *)
Theorem POST_twice_is_duplicate
    (store store1 : Store) (authInfo : AuthInfo)
    (body1 body2 : jsval) (props1 props2 : list (jsstring * jsval))
    (response1 : Response Transaction)
    (Hfirst : post store (Gives authInfo) (Gives body1) = (store1, response1))
    (Hcreated : status response1 = 201%Z)
    (Hprops1 : properties body1 = Some props1)
    (Hprops2 : properties body2 = Some props2)
    (Hrequired : required props2 = true)
    (Hsame : hashOf props2 = hashOf props1) :
  post store1 (Gives authInfo) (Gives body2)
  = (store1, failed "Duplicate transaction" 409).
Proof.
  destruct (@POST_created _ _ _ _ _ Hfirst Hcreated)
    as (a & c & b & p & user & h & t & Ea & Hu & Hid & Eb & Hp & _ & Hf & Hh
        & _ & Hc & _).
  injection Ea as <-. injection Eb as <-.
  rewrite Hprops1 in Hp. injection Hp as <-.
  destruct (created_is_found Hc) as [t' Ht']. cbn [td_hash] in Ht'.
  unfold POST. rewrite Hu, Hid, Hprops2. cbn [negb].
  replace (negb _ || negb _ || negb _) with false
    by (symmetry; rewrite <- !negb_andb; now rewrite Hrequired).
  rewrite (users_are_kept c Hc), Hf.
  fold (hashOf props2). rewrite Hsame, Hh, Ht'. reflexivity.
Qed.

End Handlers.

Import RouteSamples.

(** The list database keeps the three laws. *)
Lemma list_created_is_found
    (s : ListStore) (data : TransactionData jsstring)
    (s' : ListStore) (t : TransactionData jsstring) :
  list_createTransaction s data = Gives (s', t) ->
  exists t', list_findTransaction s' (td_hash data) = Gives (Some t').
Proof.
  intros [= <- _]. unfold list_findTransaction. cbn [fst snd].
  induction (snd s) as [|x l IH]; cbn [app find].
  - rewrite (proj2 (str_eqb_eq _ _) eq_refl). eauto.
  - destruct (str_eqb (td_hash x) (td_hash data)); eauto.
Qed.

Lemma list_users_are_kept
    (s : ListStore) (data : TransactionData jsstring)
    (s' : ListStore) (t : TransactionData jsstring) (clerkId : jsstring) :
  list_createTransaction s data = Gives (s', t) ->
  list_findUser s' clerkId = list_findUser s clerkId.
Proof. now intros [= <- _]. Qed.

Lemma list_created_user_is_found
    (s : ListStore) (clerkId email : jsstring) (s' : ListStore) (user : jsstring) :
  list_createUser s clerkId email = Gives (s', user) ->
  list_findUser s' clerkId = Gives (Some user).
Proof.
  intros [= <- <-]. unfold list_findUser. cbn [fst snd]. f_equal.
  induction (fst s) as [|x l IH]; cbn [app find fst].
  - now rewrite (proj2 (str_eqb_eq _ _) eq_refl).
  - destruct (str_eqb (fst x) clerkId) eqn:E; [|exact IH].
    apply str_eqb_eq in E. cbn [option_map]. now rewrite E.
Qed.

(** A request without authentication whose body cannot be read. *)
Lemma POST_requires_user_witness :
  truthy_opt (userId signedOut) = false
  /\ postList oneUser (Gives signedOut) Throws
     = (oneUser, errorResponse (TransactionData jsstring) "Unauthorized" 401).
Proof.
  split; [reflexivity|].
  exact (POST_requires_user list_findUser list_findTransaction
           list_createTransaction Host.Number_toString (fun _ => None)
           dateOfValue Host.TextEncoder_encode Host.SHA256 oneUser
           signedOut Throws eq_refl).
Defined.

(** X16 on the request with amount 0. *)
Lemma POST_rejects_missing_fields_witness :
  userId signedIn = Some (u "user_1")
  /\ truthy_string (u "user_1") = true
  /\ postList oneUser (Gives signedIn) (Gives zeroAmountBody)
     = (oneUser,
        errorResponse (TransactionData jsstring) "Missing required fields" 400).
Proof.
  split; [reflexivity|]. split; [reflexivity|].
  exact (proj1 (POST_rejects_missing_fields list_findUser list_findTransaction
                  list_createTransaction Host.Number_toString (fun _ => None)
                  dateOfValue Host.TextEncoder_encode Host.SHA256 oneUser
                  signedIn zeroAmountBody eq_refl eq_refl eq_refl eq_refl)).
Defined.

(** X18 on the grocery request, followed by the same request that spells
    out the description ["undefined"]: the first is created, the second
    is a duplicate. *)
Lemma POST_twice_is_duplicate_witness :
  status (snd (postList oneUser (Gives signedIn) (Gives groceryBody))) = 201%Z
  /\ postList (fst (postList oneUser (Gives signedIn) (Gives groceryBody)))
       (Gives signedIn) (Gives groceryBodyDescribed)
     = (fst (postList oneUser (Gives signedIn) (Gives groceryBody)),
        errorResponse (TransactionData jsstring) "Duplicate transaction" 409).
Proof.
  assert (H201 : status (snd (postList oneUser (Gives signedIn) (Gives groceryBody)))
                 = 201%Z) by (vm_compute; reflexivity).
  split; [exact H201|].
  refine (POST_twice_is_duplicate list_findUser list_findTransaction
            list_createTransaction Host.Number_toString (fun _ => None)
            dateOfValue Host.TextEncoder_encode Host.SHA256
            list_created_is_found list_users_are_kept
            oneUser signedIn groceryBody groceryBodyDescribed
            (surjective_pairing _) H201 eq_refl eq_refl eq_refl _).
  vm_compute. reflexivity.
Defined.

(** X19 on a first visit: [GET] creates the user and the [POST] that
    follows is not answered with 404, as it is without the [GET]. *)
Lemma GET_registers_the_user_witness :
  status (snd (getList noUser (Gives signedIn) (Gives signedIn))) = 200%Z
  /\ status (snd (postList (fst (getList noUser (Gives signedIn) (Gives signedIn)))
                    (Gives signedIn) (Gives groceryBody))) <> 404%Z
  /\ status (snd (postList noUser (Gives signedIn) (Gives groceryBody))) = 404%Z.
Proof.
  split; [reflexivity|]. split; [|reflexivity].
  exact (proj2 (GET_registers_the_user list_findUser list_createUser
                  list_findTransaction list_createTransaction list_findMany
                  Host.Number_toString (fun _ => None) dateOfValue
                  Host.TextEncoder_encode Host.SHA256
                  list_created_user_is_found
                  noUser signedIn (Gives signedIn) (Gives groceryBody)
                  (surjective_pairing _) eq_refl)).
Defined.

End RouteFacts.

(* ================================================================== *)
(** ** Truncation *)
(* ================================================================== *)

Module UtilsFacts.
Import Utils.

(** X20: [truncate] returns a text no longer than [maxLength] exactly when
    the text already fits or [maxLength] is at least 3; below 3 the three
    dots alone exceed the limit, and a negative [maxLength - 3] even
    counts from the end of the text.  What is returned is the text itself
    or a prefix of it followed by three dots, and for a text that is too
    long and a limit of at least 3 it has exactly [maxLength]
    characters. *)
Theorem truncate_fits_iff (text : jsstring) (maxLength : Z) :
  ((Z.of_nat (List.length (truncate text maxLength)) <= maxLength)%Z
   <-> (Z.of_nat (List.length text) <= maxLength \/ 3 <= maxLength)%Z)
  /\ (exists kept dropped,
         text = kept ++ dropped
         /\ (truncate text maxLength = text
             \/ truncate text maxLength = kept ++ u "..."))
  /\ (if ((Z.of_nat (List.length text) <=? maxLength) || (maxLength <? 3))%Z
      then True
      else Z.of_nat (List.length (truncate text maxLength)) = maxLength).
Proof.
  unfold truncate, slice_0.
  set (len := Z.of_nat (List.length text)).
  set (stop := if (maxLength - 3 <? 0)%Z
               then Z.max (len + (maxLength - 3)) 0
               else Z.min (maxLength - 3) len).
  assert (Hlen : Z.of_nat (List.length (firstn (Z.to_nat stop) text ++ u "..."))
                 = (stop + 3)%Z).
  { rewrite length_app, length_firstn. cbn [List.length u List.map list_ascii_of_string].
    subst stop len. destruct (maxLength - 3 <? 0)%Z eqn:E; lia. }
  destruct (len <=? maxLength)%Z eqn:L.
  - apply Z.leb_le in L. split; [|split].
    + fold len. split; [auto | intros _; exact L].
    + exists text, []. rewrite app_nil_r. auto.
    + exact I.
  - apply Z.leb_gt in L. cbn [orb]. split; [|split].
    + rewrite Hlen. subst stop.
      destruct (maxLength - 3 <? 0)%Z eqn:E;
        [apply Z.ltb_lt in E | apply Z.ltb_ge in E]; lia.
    + exists (firstn (Z.to_nat stop) text), (skipn (Z.to_nat stop) text).
      split; [now rewrite firstn_skipn | now right].
    + destruct (maxLength <? 3)%Z eqn:M; [exact I|].
      apply Z.ltb_ge in M. rewrite Hlen. subst stop.
      destruct (maxLength - 3 <? 0)%Z eqn:E;
        [apply Z.ltb_lt in E | apply Z.ltb_ge in E]; lia.
Qed.

End UtilsFacts.

(* ================================================================== *)
(** ** The fields of a parsed answer *)
(* ================================================================== *)

Module FieldFacts.
Import Categorizer.

Section Fields.

Variable JSON_parse : jsstring -> option jsval.
Variable StringToNumber : jsstring -> number.
Variable ObjectToNumber : jsval -> number.

#[local] Abbreviation parseResponse :=
  (parseCategorizationResponse JSON_parse StringToNumber ObjectToNumber).

(** X21: in the result of [parseCategorizationResponse] the explanation is
    never absent or empty, and the subcategory is absent or a truthy
    value (a [null] or empty subcategory of the answer is dropped).  The
    category is not checked: the result is the failure object, or its
    category is whatever the answer's object has under ["category"], be
    it absent, not a string, or a name outside the taxonomy. *)
Theorem parsed_fields_have_defaults (text : option jsstring) :
  let r := parseResponse text in
  truthy (explanation r) = true
  /\ (subcategory r = VUndefined \/ truthy (subcategory r) = true)
  /\ (r = parseFailure
      \/ exists answer json result props,
           text = Some answer
           /\ jsonMatch answer = Some json
           /\ JSON_parse json = Some result
           /\ properties result = Some props
           /\ category r = prop_get props (u "category")).
Proof.
  cbv zeta. unfold parseCategorizationResponse.
  destruct text as [answer|]; [|repeat split; auto].
  destruct (jsonMatch answer) as [json|] eqn:M; [|repeat split; auto].
  destruct (JSON_parse json) as [result|] eqn:P; [|repeat split; auto].
  destruct (properties result) as [props|] eqn:R; [|repeat split; auto].
  cbn [explanation subcategory category]. unfold js_or. split; [|split].
  - destruct (truthy (prop_get props (u "explanation"))) eqn:E;
      [exact E | reflexivity].
  - destruct (truthy (prop_get props (u "subcategory"))) eqn:E; auto.
  - right. exists answer, json, result, props. auto.
Qed.

End Fields.

End FieldFacts.
